(** * Two-view geometry estimation bindings (pycolmap)

    A shallow embedding of [src/estimators/essential_matrix.cc] and
    [src/estimators/fundamental_matrix.cc].

    Both files are glue around collaborators that live outside the
    repository sources: the camera model, the LO-RANSAC engine with its
    minimal and non-minimal solvers, pose recovery and the process-wide
    pseudorandom generator.  The collaborators are section variables; the
    glue itself (seeding, the length check, the loops, the threshold
    conversion, the early return, the dictionaries that are handed back) is
    written out as the code has it.

    - [double] is IEEE binary64, the kernel's primitive floats;
    - [std::vector] is [list], [push_back] appends at the end;
    - [py::dict] is a [gmap string PyObject];
    - the process-wide generator and the cameras received by reference are
      the fields of the [World] the call runs in;
    - a call either returns, throws, or indexes a vector out of range.

    The interpreter lock, released and taken again around the computation
    by scoped guards, is left out: no statement below depends on it. *)

From Stdlib Require Import PrimFloat ZArith.
From stdpp Require Import gmap strings list.

(** ** Eigen and colmap value types *)

Definition double : Set := float.
Bind Scope float_scope with double.

Definition Vector2d : Set := double * double.
Definition Vector3d : Set := double * double * double.
Definition Matrix3d : Set := Vector3d * Vector3d * Vector3d.

Record Quaterniond : Set := { qw : double; qx : double; qy : double; qz : double }.

Record Rigid3d : Set := { rotation : Quaterniond; translation : Vector3d }.

(** Modelled from the spec: the declaration of [RANSACOptions] is not part of
    the sources; section 3 of the specification gives the configuration as
    the five fields below, and section 6 gives the values a default
    constructed one holds. *)
Record RANSACOptions : Set := {
  max_error : double;
  min_inlier_ratio : double;
  min_num_trials : Z;
  max_num_trials : Z;
  confidence : double
}.

(** Modelled from the spec: [RANSACOptions ransac_options;], with the default
    values of section 6 (0.9999 is rounded to the nearest binary64, as the
    C++ literal is). *)
#[warnings="-inexact-float"] Definition RANSACOptions_default : RANSACOptions :=
  {| max_error := 4.0%float;
     min_inlier_ratio := 0.25%float;
     min_num_trials := 100;
     max_num_trials := 10000;
     confidence := 0.9999%float |}.

Definition set_max_error (v : double) (o : RANSACOptions) : RANSACOptions :=
  {| max_error := v;
     min_inlier_ratio := min_inlier_ratio o;
     min_num_trials := min_num_trials o;
     max_num_trials := max_num_trials o;
     confidence := confidence o |}.

Definition set_min_inlier_ratio (v : double) (o : RANSACOptions) : RANSACOptions :=
  {| max_error := max_error o;
     min_inlier_ratio := v;
     min_num_trials := min_num_trials o;
     max_num_trials := max_num_trials o;
     confidence := confidence o |}.

Definition set_min_num_trials (v : Z) (o : RANSACOptions) : RANSACOptions :=
  {| max_error := max_error o;
     min_inlier_ratio := min_inlier_ratio o;
     min_num_trials := v;
     max_num_trials := max_num_trials o;
     confidence := confidence o |}.

Definition set_max_num_trials (v : Z) (o : RANSACOptions) : RANSACOptions :=
  {| max_error := max_error o;
     min_inlier_ratio := min_inlier_ratio o;
     min_num_trials := min_num_trials o;
     max_num_trials := v;
     confidence := confidence o |}.

Definition set_confidence (v : double) (o : RANSACOptions) : RANSACOptions :=
  {| max_error := max_error o;
     min_inlier_ratio := min_inlier_ratio o;
     min_num_trials := min_num_trials o;
     max_num_trials := max_num_trials o;
     confidence := v |}.

(** The fields of the engine's report that the bindings read:
    [report.success], [report.model], [report.support.num_inliers] (a
    [size_t]) and [report.inlier_mask] (a [std::vector<char>]). *)
Record Support : Set := { num_inliers : Z }.

Record Report : Set := {
  success : bool;
  support : Support;
  inlier_mask : list Z;
  model : Matrix3d
}.

(** ** Python values handed back through pybind11

    The values the casters of [pybind11/pybind11.h], [pybind11/eigen.h] and
    [pybind11/stl.h] build from the C++ types at hand. *)
Inductive PyObject : Set :=
| PyBool (b : bool)
| PyInt (n : Z)
| PyMatrix3d (m : Matrix3d)
| PyRigid3d (r : Rigid3d)
| PyBoolList (l : list bool)
| PyVector3dList (l : list Vector3d).

Abbreviation PyDict := (gmap string PyObject).

(** [py::dict d("k1"_a = v1, "k2"_a = v2, ...)] *)
Definition py_dict (kwargs : list (string * PyObject)) : PyDict :=
  list_to_map kwargs.

(** ** Outcomes of a call *)

Inductive Exception : Set :=
| PreconditionViolation.

Inductive Outcome (A : Type) : Type :=
| Returned (a : A)
| Thrown (e : Exception)
| OutOfRange.
Arguments Returned {A} a.
Arguments Thrown {A} e.
Arguments OutOfRange {A}.

(** ** Vector helpers *)

Definition push_back {A : Type} (v : list A) (x : A) : list A := v ++ [x].

(** [for (size_t idx = first; idx < first + n; ++idx) body], threading the
    loop's variables; the body is [None] when it indexes out of range. *)
Fixpoint for_idx {St : Type} (body : nat -> St -> option St)
    (idx n : nat) (s : St) : option St :=
  match n with
  | O => Some s
  | S n' =>
      match body idx s with
      | Some s' => for_idx body (S idx) n' s'
      | None => None
      end
  end.

(** The truth value of a [char] in a condition. *)
Definition char_true (c : Z) : bool := negb (c =? 0)%Z.

(** [[
  std::vector<bool> inliers;
  for (auto it : inlier_mask) {
    if (it) { inliers.push_back(true); } else { inliers.push_back(false); }
  }
]] *)
Definition mask_to_inliers (inlier_mask : list Z) : list bool :=
  fold_left
    (fun inliers it =>
       if char_true it then push_back inliers true else push_back inliers false)
    inlier_mask [].

(** [[
  for (size_t idx = 0; idx < inlier_mask.size(); ++idx) {
    if (inlier_mask[idx]) {
      inlier_world_points2D1.push_back(world_points2D1[idx]);
      inlier_world_points2D2.push_back(world_points2D2[idx]);
    }
  }
]] *)
Definition select_inliers (inlier_mask : list Z)
    (world_points2D1 world_points2D2 : list Vector2d)
  : option (list Vector2d * list Vector2d) :=
  for_idx
    (fun idx (acc : list Vector2d * list Vector2d) =>
       match inlier_mask !! idx with
       | None => None
       | Some it =>
           if char_true it then
             match world_points2D1 !! idx, world_points2D2 !! idx with
             | Some p1, Some p2 =>
                 Some (push_back (fst acc) p1, push_back (snd acc) p2)
             | _, _ => None
             end
           else Some acc
       end)
    0 (length inlier_mask) ([], []).

(** ** Collaborators

    What the two files take from colmap and Eigen, as one interface. *)

Definition Engine (Generator : Type) : Type :=
  RANSACOptions -> list Vector2d -> list Vector2d -> Generator ->
  Report * Generator.

Class Colmap : Type := {
  (** The state of the process-wide generator, and the camera objects. *)
  Generator : Type;
  Camera : Type;
  (** [colmap/math/random.h] *)
  SetPRNGSeed : Z -> Generator -> Generator;
  (** [colmap/scene/camera.h]: both are [const] member functions. *)
  CamFromImg : Camera -> Vector2d -> Vector2d;
  MeanFocalLength : Camera -> double;
  (** [colmap/optim/loransac.h]: [LORANSAC<Minimal, NonMinimal>(options)
      .Estimate(X, Y)], drawing from the process-wide generator; first
      [LORANSAC<EssentialMatrixFivePointEstimator,
      EssentialMatrixFivePointEstimator>], then
      [LORANSAC<FundamentalMatrixSevenPointEstimator,
      FundamentalMatrixEightPointEstimator>]. *)
  LORANSAC_E5_E5 : Engine Generator;
  LORANSAC_F7_F8 : Engine Generator;
  (** [colmap/geometry/pose.h]: the rotation matrix, the translation and the
      triangulated points written through the three output pointers. *)
  PoseFromEssentialMatrix :
    Matrix3d -> list Vector2d -> list Vector2d ->
    Matrix3d * Vector3d * list Vector3d;
  (** [Eigen::Quaterniond(const Matrix3d&)] *)
  Quaterniond_of_matrix : Matrix3d -> Quaterniond
}.

(** Cameras are received as [Camera&]: a reference is a key into the
    caller's objects. *)
Definition CameraRef : Set := nat.

(** What a call can see and change besides its arguments. *)
Record World `{Colmap} : Type := {
  PRNG : Generator;
  cameras : CameraRef -> Camera
}.

(** ** The two operations *)

Section Estimators.

Context `{Colmap}.

(** *** Calls: state passing over the world, with exceptions *)

Definition Call (A : Type) : Type := World -> Outcome A * World.

Definition ret {A : Type} (a : A) : Call A := fun w => (Returned a, w).

Definition bind {A B : Type} (m : Call A) (k : A -> Call B) : Call B :=
  fun w =>
    match m w with
    | (Returned a, w') => k a w'
    | (Thrown e, w') => (Thrown e, w')
    | (OutOfRange, w') => (OutOfRange, w')
    end.

Notation "x <- m ;;; k" := (bind m (fun x => k))
  (at level 200, m at level 100, k at level 200, right associativity).
Notation "m ;;; k" := (bind m (fun _ => k))
  (at level 200, k at level 200, right associativity).

Definition defined {A : Type} (o : option A) : Call A :=
  fun w => match o with
           | Some a => (Returned a, w)
           | None => (OutOfRange, w)
           end.

(** [SetPRNGSeed(seed);] *)
Definition seed_PRNG (seed : Z) : Call unit :=
  fun w => (Returned tt,
            {| PRNG := SetPRNGSeed seed (PRNG w); cameras := cameras w |}).

(** Modelled from the spec: [THROW_CHECK_EQ] is a macro of
    [log_exceptions.h], which is not part of the sources; by sections 6
    and 7 of the specification a failed check signals a precondition
    violation to the caller, fatal to the call. *)
Definition THROW_CHECK_EQ (a b : nat) : Call unit :=
  fun w => if decide (a = b) then (Returned tt, w)
           else (Thrown PreconditionViolation, w).

(** Reading an object through its reference. *)
Definition deref (camera : CameraRef) : Call Camera :=
  fun w => (Returned (cameras w camera), w).

(** [ransac.Estimate(X, Y)] *)
Definition Estimate (ransac : Engine Generator) (options : RANSACOptions)
    (X Y : list Vector2d) : Call Report :=
  fun w =>
    let '(report, g) := ransac options X Y (PRNG w) in
    (Returned report, {| PRNG := g; cameras := cameras w |}).

(** [[
  std::vector<Eigen::Vector2d> world_points2D;
  for (size_t idx = 0; idx < points2D.size(); ++idx) {
    world_points2D.push_back(camera.CamFromImg(points2D[idx]));
  }
]] *)
Definition image_to_world (camera : Camera) (points2D : list Vector2d)
  : option (list Vector2d) :=
  for_idx
    (fun idx world_points2D =>
       match points2D !! idx with
       | Some p => Some (push_back world_points2D (CamFromImg camera p))
       | None => None
       end)
    0 (length points2D) [].

(** Lines 64 to 112 of [essential_matrix_estimation]: what is handed back
    once the engine has reported on the normalized correspondences.
    [failure_dict] is the dictionary built on line 37. *)
Definition essential_matrix_result (report : Report)
    (world_points2D1 world_points2D2 : list Vector2d) : Call PyDict :=
  let failure_dict := py_dict [("success", PyBool false)] in
  if negb (success report) then ret failure_dict
  else
    let E := model report in
    let num_inliers := num_inliers (support report) in
    let inlier_mask := inlier_mask report in
    inlier_world <- defined (select_inliers inlier_mask
                               world_points2D1 world_points2D2) ;;;
    let '(cam2_from_cam1_rot_mat, cam2_from_cam1_translation, points3D) :=
      PoseFromEssentialMatrix E (fst inlier_world) (snd inlier_world) in
    let cam2_from_cam1 :=
      {| rotation := Quaterniond_of_matrix cam2_from_cam1_rot_mat;
         translation := cam2_from_cam1_translation |} in
    let inliers := mask_to_inliers inlier_mask in
    ret (py_dict [("success", PyBool true);
                  ("E", PyMatrix3d E);
                  ("cam2_from_cam1", PyRigid3d cam2_from_cam1);
                  ("num_inliers", PyInt num_inliers);
                  ("inliers", PyBoolList inliers)]).

(** [essential_matrix_estimation(points2D1, points2D2, camera1, camera2,
    options)], lines 25 to 113. *)
Definition essential_matrix_estimation
    (points2D1 points2D2 : list Vector2d) (camera1 camera2 : CameraRef)
    (options : RANSACOptions) : Call PyDict :=
  seed_PRNG 0 ;;;
  THROW_CHECK_EQ (length points2D1) (length points2D2) ;;;
  cam1 <- deref camera1 ;;;
  world_points2D1 <- defined (image_to_world cam1 points2D1) ;;;
  cam2 <- deref camera2 ;;;
  world_points2D2 <- defined (image_to_world cam2 points2D2) ;;;
  let max_error_px := max_error options in
  let max_error :=
    (0.5 * (max_error_px / MeanFocalLength cam1 +
            max_error_px / MeanFocalLength cam2))%float in
  let ransac_options := set_max_error max_error options in
  report <- Estimate LORANSAC_E5_E5 ransac_options
              world_points2D1 world_points2D2 ;;;
  essential_matrix_result report world_points2D1 world_points2D2.

(** The scalar overload, lines 115 to 133. *)
Definition essential_matrix_estimation_scalars
    (points2D1 points2D2 : list Vector2d) (camera1 camera2 : CameraRef)
    (max_error_px min_inlier_ratio : double)
    (min_num_trials max_num_trials : Z) (confidence : double)
  : Call PyDict :=
  let ransac_options := RANSACOptions_default in
  let ransac_options := set_max_error max_error_px ransac_options in
  let ransac_options := set_min_inlier_ratio min_inlier_ratio ransac_options in
  let ransac_options := set_min_num_trials min_num_trials ransac_options in
  let ransac_options := set_max_num_trials max_num_trials ransac_options in
  let ransac_options := set_confidence confidence ransac_options in
  essential_matrix_estimation points2D1 points2D2 camera1 camera2
    ransac_options.

(** [fundamental_matrix_estimation(points2D1, points2D2, options)],
    lines 23 to 72. *)
Definition fundamental_matrix_estimation
    (points2D1 points2D2 : list Vector2d) (options : RANSACOptions)
  : Call PyDict :=
  seed_PRNG 0 ;;;
  THROW_CHECK_EQ (length points2D1) (length points2D2) ;;;
  let failure_dict : PyDict := ∅ in
  let failure_dict := <["success" := PyBool false]> failure_dict in
  report <- Estimate LORANSAC_F7_F8 options points2D1 points2D2 ;;;
  if negb (success report) then ret failure_dict
  else
    let F := model report in
    let num_inliers := num_inliers (support report) in
    let inlier_mask := inlier_mask report in
    let inliers := mask_to_inliers inlier_mask in
    let success_dict : PyDict := ∅ in
    let success_dict := <["success" := PyBool true]> success_dict in
    let success_dict := <["F" := PyMatrix3d F]> success_dict in
    let success_dict := <["num_inliers" := PyInt num_inliers]> success_dict in
    let success_dict := <["inliers" := PyBoolList inliers]> success_dict in
    ret success_dict.

(** The scalar overload, lines 74 to 89. *)
Definition fundamental_matrix_estimation_scalars
    (points2D1 points2D2 : list Vector2d)
    (max_error_px min_inlier_ratio : double)
    (min_num_trials max_num_trials : Z) (confidence : double)
  : Call PyDict :=
  let ransac_options := RANSACOptions_default in
  let ransac_options := set_max_error max_error_px ransac_options in
  let ransac_options := set_min_inlier_ratio min_inlier_ratio ransac_options in
  let ransac_options := set_min_num_trials min_num_trials ransac_options in
  let ransac_options := set_max_num_trials max_num_trials ransac_options in
  let ransac_options := set_confidence confidence ransac_options in
  fundamental_matrix_estimation points2D1 points2D2 ransac_options.

End Estimators.

(** ** A small instance of the collaborators

    Concrete stand-ins on which the two operations can be run: pinhole
    cameras, a generator whose state is restarted by seeding, and an engine
    with the single hypothesis of a sideways translation, for which the
    epipolar residual of a correspondence is the difference of its y
    coordinates.  Below its minimal sample size the engine reports failure
    and leaves the report empty, as LO-RANSAC does. *)

Module Demo.

Record Pinhole : Set := { focal : double; cx : double; cy : double }.

Definition cam_from_img (c : Pinhole) (p : Vector2d) : Vector2d :=
  ((fst p - cx c) / focal c, (snd p - cy c) / focal c)%float.

Definition set_seed (seed : Z) (g : Z) : Z := seed.

Definition zero3 : Vector3d := (0, 0, 0)%float.

Definition E_sideways : Matrix3d :=
  ((0, 0, 0), (0, 0, -1), (0, 1, 0))%float.

Definition residual (p1 p2 : Vector2d) : double :=
  abs (snd p2 - snd p1)%float.

Definition is_inlier (options : RANSACOptions) (p1 p2 : Vector2d) : Z :=
  if (residual p1 p2 <=? max_error options)%float then 1%Z else 0%Z.

Definition count_set (mask : list Z) : Z :=
  fold_right (fun c n => if char_true c then (n + 1)%Z else n) 0%Z mask.

Definition estimate (min_samples : nat) : Engine Z :=
  fun options X Y g =>
    if length X <? min_samples then
      ({| success := false;
          support := {| num_inliers := 0 |};
          inlier_mask := [];
          model := (zero3, zero3, zero3) |}, g)
    else
      let mask := zip_with (is_inlier options) X Y in
      ({| success := true;
          support := {| num_inliers := count_set mask |};
          inlier_mask := mask;
          model := E_sideways |}, (g + 1)%Z).

Definition pose (E : Matrix3d) (X Y : list Vector2d)
  : Matrix3d * Vector3d * list Vector3d :=
  (((1, 0, 0), (0, 1, 0), (0, 0, 1))%float,
   (1, 0, 0)%float,
   map (fun p : Vector2d => (fst p, snd p, 1%float)) X).

Definition quaternion (R : Matrix3d) : Quaterniond :=
  {| qw := 1; qx := 0; qy := 0; qz := 0 |}%float.

Definition colmap : Colmap :=
  {| Generator := Z;
     Camera := Pinhole;
     SetPRNGSeed := set_seed;
     CamFromImg := cam_from_img;
     MeanFocalLength := focal;
     LORANSAC_E5_E5 := estimate 5;
     LORANSAC_F7_F8 := estimate 7;
     PoseFromEssentialMatrix := pose;
     Quaterniond_of_matrix := quaternion |}.

Definition camera_at (r : CameraRef) : Pinhole :=
  match r with
  | O => {| focal := 2; cx := 0; cy := 0 |}%float
  | _ => {| focal := 4; cx := 0; cy := 0 |}%float
  end.

Definition world (g : Z) : @World colmap := @Build_World colmap g camera_at.

Definition options : RANSACOptions := RANSACOptions_default.

(** Eight correspondences; the last one is off by far. *)
Definition points1 : list Vector2d :=
  [(0, 0); (2, 2); (4, 0); (6, 2); (8, 4); (10, 8); (12, 6); (14, 2)]%float.
Definition points2 : list Vector2d :=
  [(4, 0); (8, 4); (12, 0); (16, 4); (20, 8); (24, 16); (28, 12); (32, 400)]%float.

(** Two correspondences: too few for either engine. *)
Definition few1 : list Vector2d := [(0, 0); (2, 2)]%float.
Definition few2 : list Vector2d := [(4, 0); (8, 4)]%float.

(** A pose recovery with the rotation and translation of [pose] that
    triangulates nothing. *)
Definition pose_without_points (E : Matrix3d) (X Y : list Vector2d)
  : Matrix3d * Vector3d * list Vector3d :=
  (fst (pose E X Y), []).

(** Three correspondences, and a mask of four entries for them. *)
Definition three1 : list Vector2d := [(0, 0); (2, 2); (4, 0)]%float.
Definition three2 : list Vector2d := [(4, 0); (8, 4); (12, 0)]%float.
Definition long_mask : list Z := [1; 0; 2; 0]%Z.

(** What the two operations hand back on the eight correspondences. *)
Definition essential_report : PyDict :=
  py_dict
    [("success", PyBool true);
     ("E", PyMatrix3d E_sideways);
     ("cam2_from_cam1",
      PyRigid3d {| rotation := {| qw := 1; qx := 0; qy := 0; qz := 0 |};
                   translation := (1, 0, 0) |}%float);
     ("num_inliers", PyInt 7);
     ("inliers",
      PyBoolList [true; true; true; true; true; true; true; false])].


End Demo.

(** ** The specification's vocabulary *)

(** The correspondences marked in the mask, in order. *)
Fixpoint inliers_of {A : Type} (mask : list Z) (points : list A) : list A :=
  match mask, points with
  | it :: mask', p :: points' =>
      if char_true it then p :: inliers_of mask' points'
      else inliers_of mask' points'
  | _, _ => []
  end.

(** [count(true in inlierMask)] *)
Fixpoint count_true (l : list bool) : nat :=
  match l with
  | [] => 0
  | b :: l' => if b then S (count_true l') else count_true l'
  end.



(** The normalized-space threshold of section 4.5. *)
Definition normalized_max_error `{Colmap} (cam1 cam2 : Camera)
    (max_error_pixels : double) : double :=
  (0.5 * (max_error_pixels / MeanFocalLength cam1 +
          max_error_pixels / MeanFocalLength cam2))%float.

(** The world right after [SetPRNGSeed(0)]. *)
Definition seeded `{Colmap} (w : World) : World :=
  {| PRNG := SetPRNGSeed 0 (PRNG w); cameras := cameras w |}.

(** The engine's run on the essential path as section 4.5 describes it:
    normalized points, converted threshold, freshly seeded generator. *)
Definition essential_ransac `{Colmap} (points2D1 points2D2 : list Vector2d)
    (camera1 camera2 : CameraRef) (options : RANSACOptions) (w : World)
  : Report * Generator :=
  let cam1 := cameras w camera1 in
  let cam2 := cameras w camera2 in
  LORANSAC_E5_E5
    (set_max_error (normalized_max_error cam1 cam2 (max_error options)) options)
    (map (CamFromImg cam1) points2D1)
    (map (CamFromImg cam2) points2D2)
    (SetPRNGSeed 0 (PRNG w)).

(** The engine's run on the fundamental path: pixel space, options as
    given, freshly seeded generator. *)
Definition fundamental_ransac `{Colmap} (points2D1 points2D2 : list Vector2d)
    (options : RANSACOptions) (w : World) : Report * Generator :=
  LORANSAC_F7_F8 options points2D1 points2D2 (SetPRNGSeed 0 (PRNG w)).

(** ** The registration of the two operations

    [bind_essential_matrix_estimation] (lines 135 to 172) and
    [bind_fundamental_matrix_estimation] (lines 91 to 120) register both
    overloads under one name.  An argument declared with a default
    (["name"_a = value]) may be left out by the caller; it is an [option]
    here.  [est_options] is what [m.attr("RANSACOptions")()] yields when the
    module is initialised.  Which of the two overloads pybind11 picks for a
    given call is not modelled. *)

Section Bindings.

Context `{Colmap}.

Record EssentialOverloads : Type := {
  essential_with_options :
    list Vector2d -> list Vector2d -> CameraRef -> CameraRef ->
    option RANSACOptions -> Call PyDict;
  essential_with_scalars :
    list Vector2d -> list Vector2d -> CameraRef -> CameraRef ->
    option double -> option double -> option Z -> option Z ->
    option double -> Call PyDict
}.

Record FundamentalOverloads : Type := {
  fundamental_with_options :
    list Vector2d -> list Vector2d -> option RANSACOptions -> Call PyDict;
  fundamental_with_scalars :
    list Vector2d -> list Vector2d ->
    option double -> option double -> option Z -> option Z ->
    option double -> Call PyDict
}.

Definition bind_essential_matrix_estimation (est_options : RANSACOptions)
  : EssentialOverloads :=
  {| essential_with_options :=
       fun points2D1 points2D2 camera1 camera2 estimation_options =>
         essential_matrix_estimation points2D1 points2D2 camera1 camera2
           (default est_options estimation_options);
     essential_with_scalars :=
       fun points2D1 points2D2 camera1 camera2
           max_error_px min_inlier_ratio' min_num_trials' max_num_trials'
           confidence' =>
         essential_matrix_estimation_scalars
           points2D1 points2D2 camera1 camera2
           (default (max_error est_options) max_error_px)
           (default (min_inlier_ratio est_options) min_inlier_ratio')
           (default (min_num_trials est_options) min_num_trials')
           (default (max_num_trials est_options) max_num_trials')
           (default (confidence est_options) confidence') |}.

Definition bind_fundamental_matrix_estimation (est_options : RANSACOptions)
  : FundamentalOverloads :=
  {| fundamental_with_options :=
       fun points2D1 points2D2 estimation_options =>
         fundamental_matrix_estimation points2D1 points2D2
           (default est_options estimation_options);
     fundamental_with_scalars :=
       fun points2D1 points2D2
           max_error_px min_inlier_ratio' min_num_trials' max_num_trials'
           confidence' =>
         fundamental_matrix_estimation_scalars points2D1 points2D2
           (default (max_error est_options) max_error_px)
           (default (min_inlier_ratio est_options) min_inlier_ratio')
           (default (min_num_trials est_options) min_num_trials')
           (default (max_num_trials est_options) max_num_trials')
           (default (confidence est_options) confidence') |}.

End Bindings.

(** ** The calls into the collaborators, in order

    The same two operations, statement for statement, each handing back in
    addition the calls it made into colmap and Eigen, in the order in which
    it made them.  The steps are the ones of the operations above
    ([seed_PRNG], [THROW_CHECK_EQ], [Estimate], ...); a step that is a call
    into a collaborator is [recorded], a step of the glue itself is
    [quiet].  The two calls of [MeanFocalLength] stand in one expression
    and are recorded left to right. *)

Inductive EngineKind : Set :=
| E5_E5
| F7_F8.

Inductive Event : Set :=
| CallSetPRNGSeed (seed : Z)
| CallCamFromImg (camera : CameraRef) (point : Vector2d)
| CallMeanFocalLength (camera : CameraRef)
| CallEstimate (ransac : EngineKind) (options : RANSACOptions)
    (X Y : list Vector2d)
| CallPoseFromEssentialMatrix (E : Matrix3d) (X Y : list Vector2d)
| CallQuaterniond (R : Matrix3d).

Section Traced.

Context `{Colmap}.

Definition Traced (A : Type) : Type :=
  World -> Outcome A * World * list Event.

Definition quiet {A : Type} (m : Call A) : Traced A :=
  fun w => (m w, []).

Definition recorded {A : Type} (call : Event) (m : Call A) : Traced A :=
  fun w => (m w, [call]).

Definition and_then {A B : Type} (m : Traced A) (k : A -> Traced B)
  : Traced B :=
  fun w =>
    match m w with
    | (Returned a, w', calls) =>
        let '(result, calls') := k a w' in (result, calls ++ calls')
    | (Thrown e, w', calls) => (Thrown e, w', calls)
    | (OutOfRange, w', calls) => (OutOfRange, w', calls)
    end.

Notation "x <- m ;;; k" := (and_then m (fun x => k))
  (at level 200, m at level 100, k at level 200, right associativity).
Notation "m ;;; k" := (and_then m (fun _ => k))
  (at level 200, k at level 200, right associativity).

(** The normalization loop: one call of [CamFromImg] per turn. *)
Definition traced_image_to_world (camera : CameraRef)
    (points2D : list Vector2d) : Traced (list Vector2d) :=
  fun w =>
    match
      for_idx
        (fun idx (acc : list Vector2d * list Event) =>
           match points2D !! idx with
           | Some p =>
               Some (push_back (fst acc) (CamFromImg (cameras w camera) p),
                     push_back (snd acc) (CallCamFromImg camera p))
           | None => None
           end)
        0 (length points2D) ([], [])
    with
    | Some (world_points2D, calls) => (Returned world_points2D, w, calls)
    | None => (OutOfRange, w, [])
    end.

Definition call_MeanFocalLength (camera : CameraRef) : Traced double :=
  recorded (CallMeanFocalLength camera)
    (fun w => (Returned (MeanFocalLength (cameras w camera)), w)).

(** Lines 64 to 112 of [essential_matrix_estimation]. *)
Definition traced_essential_matrix_result (report : Report)
    (world_points2D1 world_points2D2 : list Vector2d) : Traced PyDict :=
  let failure_dict := py_dict [("success", PyBool false)] in
  if negb (success report) then quiet (ret failure_dict)
  else
    let E := model report in
    let num_inliers := num_inliers (support report) in
    let inlier_mask := inlier_mask report in
    inlier_world <- quiet (defined (select_inliers inlier_mask
                                      world_points2D1 world_points2D2)) ;;;
    recovered <- recorded
                   (CallPoseFromEssentialMatrix E
                      (fst inlier_world) (snd inlier_world))
                   (ret (PoseFromEssentialMatrix E
                           (fst inlier_world) (snd inlier_world))) ;;;
    let '(cam2_from_cam1_rot_mat, cam2_from_cam1_translation, points3D) :=
      recovered in
    q <- recorded (CallQuaterniond cam2_from_cam1_rot_mat)
           (ret (Quaterniond_of_matrix cam2_from_cam1_rot_mat)) ;;;
    let cam2_from_cam1 :=
      {| rotation := q; translation := cam2_from_cam1_translation |} in
    let inliers := mask_to_inliers inlier_mask in
    quiet (ret (py_dict [("success", PyBool true);
                         ("E", PyMatrix3d E);
                         ("cam2_from_cam1", PyRigid3d cam2_from_cam1);
                         ("num_inliers", PyInt num_inliers);
                         ("inliers", PyBoolList inliers)])).

(** [essential_matrix_estimation], lines 25 to 113. *)
Definition traced_essential_matrix_estimation
    (points2D1 points2D2 : list Vector2d) (camera1 camera2 : CameraRef)
    (options : RANSACOptions) : Traced PyDict :=
  recorded (CallSetPRNGSeed 0) (seed_PRNG 0) ;;;
  quiet (THROW_CHECK_EQ (length points2D1) (length points2D2)) ;;;
  world_points2D1 <- traced_image_to_world camera1 points2D1 ;;;
  world_points2D2 <- traced_image_to_world camera2 points2D2 ;;;
  let max_error_px := max_error options in
  f1 <- call_MeanFocalLength camera1 ;;;
  f2 <- call_MeanFocalLength camera2 ;;;
  let max_error := (0.5 * (max_error_px / f1 + max_error_px / f2))%float in
  let ransac_options := set_max_error max_error options in
  report <- recorded
              (CallEstimate E5_E5 ransac_options
                 world_points2D1 world_points2D2)
              (Estimate LORANSAC_E5_E5 ransac_options
                 world_points2D1 world_points2D2) ;;;
  traced_essential_matrix_result report world_points2D1 world_points2D2.

(** The scalar overload, lines 115 to 133. *)
Definition traced_essential_matrix_estimation_scalars
    (points2D1 points2D2 : list Vector2d) (camera1 camera2 : CameraRef)
    (max_error_px min_inlier_ratio : double)
    (min_num_trials max_num_trials : Z) (confidence : double)
  : Traced PyDict :=
  let ransac_options := RANSACOptions_default in
  let ransac_options := set_max_error max_error_px ransac_options in
  let ransac_options := set_min_inlier_ratio min_inlier_ratio ransac_options in
  let ransac_options := set_min_num_trials min_num_trials ransac_options in
  let ransac_options := set_max_num_trials max_num_trials ransac_options in
  let ransac_options := set_confidence confidence ransac_options in
  traced_essential_matrix_estimation points2D1 points2D2 camera1 camera2
    ransac_options.

(** [fundamental_matrix_estimation], lines 23 to 72. *)
Definition traced_fundamental_matrix_estimation
    (points2D1 points2D2 : list Vector2d) (options : RANSACOptions)
  : Traced PyDict :=
  recorded (CallSetPRNGSeed 0) (seed_PRNG 0) ;;;
  quiet (THROW_CHECK_EQ (length points2D1) (length points2D2)) ;;;
  let failure_dict : PyDict := ∅ in
  let failure_dict := <["success" := PyBool false]> failure_dict in
  report <- recorded (CallEstimate F7_F8 options points2D1 points2D2)
              (Estimate LORANSAC_F7_F8 options points2D1 points2D2) ;;;
  if negb (success report) then quiet (ret failure_dict)
  else
    let F := model report in
    let num_inliers := num_inliers (support report) in
    let inlier_mask := inlier_mask report in
    let inliers := mask_to_inliers inlier_mask in
    let success_dict : PyDict := ∅ in
    let success_dict := <["success" := PyBool true]> success_dict in
    let success_dict := <["F" := PyMatrix3d F]> success_dict in
    let success_dict := <["num_inliers" := PyInt num_inliers]> success_dict in
    let success_dict := <["inliers" := PyBoolList inliers]> success_dict in
    quiet (ret success_dict).

(** The scalar overload, lines 74 to 89. *)
Definition traced_fundamental_matrix_estimation_scalars
    (points2D1 points2D2 : list Vector2d)
    (max_error_px min_inlier_ratio : double)
    (min_num_trials max_num_trials : Z) (confidence : double)
  : Traced PyDict :=
  let ransac_options := RANSACOptions_default in
  let ransac_options := set_max_error max_error_px ransac_options in
  let ransac_options := set_min_inlier_ratio min_inlier_ratio ransac_options in
  let ransac_options := set_min_num_trials min_num_trials ransac_options in
  let ransac_options := set_max_num_trials max_num_trials ransac_options in
  let ransac_options := set_confidence confidence ransac_options in
  traced_fundamental_matrix_estimation points2D1 points2D2 ransac_options.

End Traced.

(** Sections 6 and 7 of the specification read to the letter: the violation is
    signaled before anything else was done, so no call was made and the
    world is the one the caller had. *)
Definition signaled_before_any_computation `{Colmap} (w : World)
    (run : Outcome PyDict * World * list Event) : Prop :=
  fst (fst run) = Thrown PreconditionViolation ∧
  snd (fst run) = w ∧
  snd run = [].

(** Modelled from the spec: [PoseFromEssentialMatrix] is declared in
    [colmap/geometry/pose.h], which is not part of the sources.  By section
    4.4 of the specification pose recovery triangulates every inlier
    correspondence it is given and the triangulated points of the selected
    candidate are the output 3D point set; by section 3 that is one point
    per inlier. *)
Definition pose_triangulates_every_pair `{Colmap} : Prop :=
  ∀ (E : Matrix3d) (X Y : list Vector2d),
    length (snd (PoseFromEssentialMatrix E X Y)) = length X.

(** ** Further vocabulary *)

(** The mask marks an entry at or beyond position [n]. *)
Definition marked_beyond (mask : list Z) (n : nat) : Prop :=
  ∃ (idx : nat) (it : Z),
    mask !! idx = Some it ∧ char_true it = true ∧ n <= idx.

(** Every marked entry of the mask has a point to go with it. *)
Fixpoint marks_within {A : Type} (mask : list Z) (points : list A) : bool :=
  match mask, points with
  | [], _ => true
  | it :: mask', [] => negb (char_true it) && marks_within mask' (@nil A)
  | _ :: mask', _ :: points' => marks_within mask' points'
  end.

(** The same collaborators with another pose recovery. *)
Definition with_pose_recovery (C : Colmap)
    (pose : Matrix3d -> list Vector2d -> list Vector2d ->
            Matrix3d * Vector3d * list Vector3d) : Colmap :=
  {| Generator := @Generator C;
     Camera := @Camera C;
     SetPRNGSeed := @SetPRNGSeed C;
     CamFromImg := @CamFromImg C;
     MeanFocalLength := @MeanFocalLength C;
     LORANSAC_E5_E5 := @LORANSAC_E5_E5 C;
     LORANSAC_F7_F8 := @LORANSAC_F7_F8 C;
     PoseFromEssentialMatrix := pose;
     Quaterniond_of_matrix := @Quaterniond_of_matrix C |}.

(** A world of [C] seen as a world of [with_pose_recovery C pose]. *)
Definition same_world (C : Colmap)
    (pose : Matrix3d -> list Vector2d -> list Vector2d ->
            Matrix3d * Vector3d * list Vector3d)
    (w : @World C) : @World (with_pose_recovery C pose) :=
  @Build_World (with_pose_recovery C pose) (@PRNG C w) (@cameras C w).

(** ** The loops, in closed form *)

Lemma mask_to_inliers_from (inlier_mask : list Z) (inliers : list bool) :
  fold_left
    (fun inliers it =>
       if char_true it then push_back inliers true else push_back inliers false)
    inlier_mask inliers
  = inliers ++ map char_true inlier_mask.
Proof.
  revert inliers.
  induction inlier_mask as [|it mask IH]; intros inliers; simpl.
  - by rewrite app_nil_r.
  - rewrite IH. unfold push_back.
    destruct (char_true it); by rewrite <- app_assoc.
Qed.

Lemma mask_to_inliers_map (inlier_mask : list Z) :
  mask_to_inliers inlier_mask = map char_true inlier_mask.
Proof. unfold mask_to_inliers. by rewrite mask_to_inliers_from. Qed.

(** ** Properties of the two operations *)

Section Properties.

Context `{Colmap}.

Lemma image_to_world_from (camera : Camera)
    (points2D pre rest world_points2D : list Vector2d) :
  points2D = pre ++ rest ->
  for_idx
    (fun idx world_points2D =>
       match points2D !! idx with
       | Some p => Some (push_back world_points2D (CamFromImg camera p))
       | None => None
       end)
    (length pre) (length rest) world_points2D
  = Some (world_points2D ++ map (CamFromImg camera) rest).
Proof.
  revert pre world_points2D.
  induction rest as [|p rest IH]; intros pre acc Hsplit; simpl.
  - by rewrite app_nil_r.
  - assert (Hp : points2D !! length pre = Some p)
      by (rewrite Hsplit; apply list_lookup_middle; reflexivity).
    rewrite Hp.
    replace (S (length pre)) with (length (pre ++ [p]))
      by (rewrite length_app; simpl; lia).
    rewrite IH by (rewrite Hsplit, <- app_assoc; reflexivity).
    unfold push_back. by rewrite <- app_assoc.
Qed.

Lemma image_to_world_map (camera : Camera) (points2D : list Vector2d) :
  image_to_world camera points2D = Some (map (CamFromImg camera) points2D).
Proof.
  unfold image_to_world.
  apply (image_to_world_from camera points2D [] points2D []). reflexivity.
Qed.

(** The whole of [essential_matrix_estimation] up to the engine's report. *)
Lemma essential_run (points2D1 points2D2 : list Vector2d)
    (camera1 camera2 : CameraRef) (options : RANSACOptions) (w : World) :
  essential_matrix_estimation points2D1 points2D2 camera1 camera2 options w
  = if decide (length points2D1 = length points2D2) then
      essential_matrix_result
        (fst (essential_ransac points2D1 points2D2 camera1 camera2 options w))
        (map (CamFromImg (cameras w camera1)) points2D1)
        (map (CamFromImg (cameras w camera2)) points2D2)
        {| PRNG := snd (essential_ransac points2D1 points2D2
                          camera1 camera2 options w);
           cameras := cameras w |}
    else (Thrown PreconditionViolation, seeded w).
Proof.
  unfold essential_matrix_estimation, bind, seed_PRNG, THROW_CHECK_EQ.
  destruct (decide (length points2D1 = length points2D2)) as [Heq|Hne];
    [|reflexivity].
  unfold deref, defined, Estimate. cbn [PRNG cameras].
  rewrite !image_to_world_map. unfold essential_ransac, normalized_max_error.
  destruct (LORANSAC_E5_E5 _ _ _ _) as [report g]. reflexivity.
Qed.

Lemma essential_matrix_result_failure (report : Report)
    (X Y : list Vector2d) (w : World) :
  success report = false ->
  essential_matrix_result report X Y w
  = (Returned {["success" := PyBool false]}, w).
Proof.
  intros Hfail. unfold essential_matrix_result. rewrite Hfail. reflexivity.
Qed.

Lemma essential_matrix_result_frame (report : Report)
    (X Y : list Vector2d) (w : World) :
  snd (essential_matrix_result report X Y w) = w.
Proof.
  unfold essential_matrix_result, bind, defined, ret.
  destruct (success report); cbn [negb]; [|reflexivity].
  destruct (select_inliers _ _ _) as [inlier_world|]; [|reflexivity].
  destruct (PoseFromEssentialMatrix _ _ _) as [[R t] points3D]. reflexivity.
Qed.

(** The whole of [fundamental_matrix_estimation]. *)
Lemma fundamental_run (points2D1 points2D2 : list Vector2d)
    (options : RANSACOptions) (w : World) :
  fundamental_matrix_estimation points2D1 points2D2 options w
  = if decide (length points2D1 = length points2D2) then
      let report := fst (fundamental_ransac points2D1 points2D2 options w) in
      (Returned
         (if success report then
            <["inliers" := PyBoolList (map char_true (inlier_mask report))]>
              (<["num_inliers" := PyInt (num_inliers (support report))]>
                 (<["F" := PyMatrix3d (model report)]>
                    {["success" := PyBool true]}))
          else {["success" := PyBool false]}),
       {| PRNG := snd (fundamental_ransac points2D1 points2D2 options w);
          cameras := cameras w |})
    else (Thrown PreconditionViolation, seeded w).
Proof.
  unfold fundamental_matrix_estimation, bind, seed_PRNG, THROW_CHECK_EQ.
  destruct (decide (length points2D1 = length points2D2)) as [Heq|Hne];
    [|reflexivity].
  unfold Estimate, fundamental_ransac. cbn [PRNG cameras].
  destruct (LORANSAC_F7_F8 _ _ _ _) as [report g]. cbn [fst snd].
  destruct (success report); cbn [negb]; unfold ret;
    rewrite ?mask_to_inliers_map; reflexivity.
Qed.

(** Both scalar overloads build the options and delegate. *)
Lemma essential_scalars_delegate (points2D1 points2D2 : list Vector2d)
    (camera1 camera2 : CameraRef) (max_error_px min_inlier_ratio : double)
    (min_num_trials max_num_trials : Z) (confidence : double) :
  essential_matrix_estimation_scalars points2D1 points2D2 camera1 camera2
    max_error_px min_inlier_ratio min_num_trials max_num_trials confidence
  = essential_matrix_estimation points2D1 points2D2 camera1 camera2
      {| max_error := max_error_px;
         min_inlier_ratio := min_inlier_ratio;
         min_num_trials := min_num_trials;
         max_num_trials := max_num_trials;
         confidence := confidence |}.
Proof. reflexivity. Qed.

Lemma fundamental_scalars_delegate (points2D1 points2D2 : list Vector2d)
    (max_error_px min_inlier_ratio : double)
    (min_num_trials max_num_trials : Z) (confidence : double) :
  fundamental_matrix_estimation_scalars points2D1 points2D2
    max_error_px min_inlier_ratio min_num_trials max_num_trials confidence
  = fundamental_matrix_estimation points2D1 points2D2
      {| max_error := max_error_px;
         min_inlier_ratio := min_inlier_ratio;
         min_num_trials := min_num_trials;
         max_num_trials := max_num_trials;
         confidence := confidence |}.
Proof. reflexivity. Qed.

(** *** Failed estimation *)

(** C3: when the engine reports failure, either operation returns the
    dictionary whose single entry is [success = False]: no model and no
    other field is in it. *)
Theorem failed_estimation_reports_only_failure
    (points2D1 points2D2 : list Vector2d) (camera1 camera2 : CameraRef)
    (options : RANSACOptions) (w : World) :
  length points2D1 = length points2D2 ->
  (success
     (fst (essential_ransac points2D1 points2D2 camera1 camera2 options w))
   = false ->
   fst (essential_matrix_estimation points2D1 points2D2 camera1 camera2
          options w)
   = Returned {["success" := PyBool false]}) ∧
  (success (fst (fundamental_ransac points2D1 points2D2 options w)) = false ->
   fst (fundamental_matrix_estimation points2D1 points2D2 options w)
   = Returned {["success" := PyBool false]}).
Proof.
  intros Hlen. split; intros Hfail.
  - rewrite essential_run. rewrite decide_True by assumption.
    rewrite essential_matrix_result_failure by assumption. reflexivity.
  - rewrite fundamental_run. rewrite decide_True by assumption.
    cbn zeta. rewrite Hfail. reflexivity.
Qed.

(** *** Reproducibility *)

(** C5: seeding restarts the generator whatever its state was, so two calls
    on the same arguments and the same cameras end alike from any two
    generator states: same outcome (hence same model, inlier count and
    mask) and same final world, in each of the four call shapes. *)
Theorem estimation_is_reproducible (points2D1 points2D2 : list Vector2d)
    (camera1 camera2 : CameraRef) (options : RANSACOptions)
    (max_error_px min_inlier_ratio : double)
    (min_num_trials max_num_trials : Z) (confidence : double)
    (w1 w2 : World) :
  (∀ (seed : Z) (g1 g2 : Generator), SetPRNGSeed seed g1 = SetPRNGSeed seed g2) ->
  cameras w1 = cameras w2 ->
  essential_matrix_estimation points2D1 points2D2 camera1 camera2 options w1
    = essential_matrix_estimation points2D1 points2D2 camera1 camera2
        options w2 ∧
  essential_matrix_estimation_scalars points2D1 points2D2 camera1 camera2
    max_error_px min_inlier_ratio min_num_trials max_num_trials confidence w1
    = essential_matrix_estimation_scalars points2D1 points2D2 camera1 camera2
        max_error_px min_inlier_ratio min_num_trials max_num_trials
        confidence w2 ∧
  fundamental_matrix_estimation points2D1 points2D2 options w1
    = fundamental_matrix_estimation points2D1 points2D2 options w2 ∧
  fundamental_matrix_estimation_scalars points2D1 points2D2
    max_error_px min_inlier_ratio min_num_trials max_num_trials confidence w1
    = fundamental_matrix_estimation_scalars points2D1 points2D2
        max_error_px min_inlier_ratio min_num_trials max_num_trials
        confidence w2.
Proof.
  intros Hreset Hcams.
  assert (Hseeded : seeded w1 = seeded w2)
    by (unfold seeded; rewrite Hcams, (Hreset 0%Z (PRNG w1) (PRNG w2));
        reflexivity).
  assert (HE : ∀ o, essential_ransac points2D1 points2D2 camera1 camera2 o w1
                    = essential_ransac points2D1 points2D2 camera1 camera2 o w2)
    by (intros o; unfold essential_ransac;
        rewrite Hcams, (Hreset 0%Z (PRNG w1) (PRNG w2)); reflexivity).
  assert (HF : ∀ o, fundamental_ransac points2D1 points2D2 o w1
                    = fundamental_ransac points2D1 points2D2 o w2)
    by (intros o; unfold fundamental_ransac;
        rewrite (Hreset 0%Z (PRNG w1) (PRNG w2)); reflexivity).
  rewrite essential_scalars_delegate, fundamental_scalars_delegate.
  rewrite !essential_run, !fundamental_run.
  rewrite !HE, !HF, Hseeded, Hcams. repeat split.
Qed.

(** *** The two overloads *)

(** C9: the scalar overload of either operation is the options overload at
    any options whose five fields are the five scalars. *)
Theorem scalar_overload_agrees_with_options_overload
    (points2D1 points2D2 : list Vector2d) (camera1 camera2 : CameraRef)
    (options : RANSACOptions) (max_error_px min_inlier_ratio' : double)
    (min_num_trials' max_num_trials' : Z) (confidence' : double) :
  max_error options = max_error_px ->
  min_inlier_ratio options = min_inlier_ratio' ->
  min_num_trials options = min_num_trials' ->
  max_num_trials options = max_num_trials' ->
  confidence options = confidence' ->
  essential_matrix_estimation_scalars points2D1 points2D2 camera1 camera2
    max_error_px min_inlier_ratio' min_num_trials' max_num_trials' confidence'
    = essential_matrix_estimation points2D1 points2D2 camera1 camera2 options ∧
  fundamental_matrix_estimation_scalars points2D1 points2D2
    max_error_px min_inlier_ratio' min_num_trials' max_num_trials' confidence'
    = fundamental_matrix_estimation points2D1 points2D2 options.
Proof.
  intros Herr Hratio Hmin Hmax Hconf.
  rewrite essential_scalars_delegate, fundamental_scalars_delegate.
  destruct options as [e r tmin tmax c]; cbn in Herr, Hratio, Hmin, Hmax, Hconf.
  subst. split; reflexivity.
Qed.

(** *** What a call changes *)

(** C10: either operation sets the generator's seed to 0 before it compares
    the lengths.  A rejected call leaves the world with the generator
    seeded and nothing else changed; an accepted call leaves the generator
    as the engine left it after running from the seeded state; the cameras
    are never changed. *)
Theorem seeding_precedes_the_length_check
    (points2D1 points2D2 : list Vector2d) (camera1 camera2 : CameraRef)
    (options : RANSACOptions) (w : World) :
  let after_E :=
    snd (essential_matrix_estimation points2D1 points2D2 camera1 camera2
           options w) in
  let after_F :=
    snd (fundamental_matrix_estimation points2D1 points2D2 options w) in
  (cameras after_E = cameras w ∧ cameras after_F = cameras w) ∧
  (length points2D1 ≠ length points2D2 ->
   essential_matrix_estimation points2D1 points2D2 camera1 camera2 options w
     = (Thrown PreconditionViolation,
        {| PRNG := SetPRNGSeed 0 (PRNG w); cameras := cameras w |}) ∧
   fundamental_matrix_estimation points2D1 points2D2 options w
     = (Thrown PreconditionViolation,
        {| PRNG := SetPRNGSeed 0 (PRNG w); cameras := cameras w |})) ∧
  (length points2D1 = length points2D2 ->
   PRNG after_E
     = snd (essential_ransac points2D1 points2D2 camera1 camera2 options w) ∧
   PRNG after_F = snd (fundamental_ransac points2D1 points2D2 options w)).
Proof.
  intros after_E after_F. subst after_E after_F.
  rewrite essential_run, fundamental_run.
  destruct (decide (length points2D1 = length points2D2)) as [Heq|Hne].
  - rewrite essential_matrix_result_frame. cbn [snd PRNG cameras].
    split; [split; reflexivity|].
    split; [intros Hne; contradiction|]. intros _. split; reflexivity.
  - cbn [snd]. unfold seeded. cbn [cameras].
    split; [split; reflexivity|].
    split; [intros _; split; reflexivity|]. intros Heq. contradiction.
Qed.

End Properties.

(** ** Further properties: the selection loop and its bounds *)

Lemma inliers_of_nil {A : Type} (mask : list Z) :
  inliers_of mask (@nil A) = [].
Proof. destruct mask; reflexivity. Qed.

Lemma marks_within_false {A : Type} (mask : list Z) (points : list A) :
  marks_within mask points = false ↔ marked_beyond mask (length points).
Proof.
  revert points. induction mask as [|it mask IH]; intros points.
  - split; [discriminate|]. intros (idx & c & Hidx & _).
    rewrite lookup_nil in Hidx. discriminate.
  - destruct points as [|p points]; cbn [marks_within length].
    + destruct (char_true it) eqn:Hit; cbn [negb andb].
      * split; [|reflexivity]. intros _. exists 0, it.
        repeat split; [assumption|lia].
      * rewrite IH. cbn [length].
        split; intros (idx & c & Hidx & Hc & Hle).
        -- exists (S idx), c. repeat split; [assumption..|lia].
        -- destruct idx as [|idx]; cbn in Hidx.
           ++ injection Hidx as ->. congruence.
           ++ exists idx, c. repeat split; [assumption..|lia].
    + rewrite IH. split; intros (idx & c & Hidx & Hc & Hle).
      * exists (S idx), c. repeat split; [assumption..|lia].
      * destruct idx as [|idx]; [lia|]. cbn in Hidx.
        exists idx, c. repeat split; [assumption..|lia].
Qed.

Lemma marks_within_same_length {A B : Type} (mask : list Z)
    (X : list A) (Y : list B) :
  length X = length Y -> marks_within mask X = marks_within mask Y.
Proof.
  revert X Y. induction mask as [|it mask IH]; intros X Y Hlen;
    [reflexivity|].
  destruct X as [|x X], Y as [|y Y]; try discriminate Hlen;
    cbn [marks_within].
  - rewrite (IH [] []); reflexivity.
  - apply IH. cbn in Hlen. lia.
Qed.

Lemma select_inliers_loop (inlier_mask pre rest : list Z)
    (X Y acc1 acc2 : list Vector2d) :
  inlier_mask = pre ++ rest ->
  for_idx
    (fun idx (acc : list Vector2d * list Vector2d) =>
       match inlier_mask !! idx with
       | None => None
       | Some it =>
           if char_true it then
             match X !! idx, Y !! idx with
             | Some p1, Some p2 =>
                 Some (push_back (fst acc) p1, push_back (snd acc) p2)
             | _, _ => None
             end
           else Some acc
       end)
    (length pre) (length rest) (acc1, acc2)
  = if marks_within rest (drop (length pre) X)
       && marks_within rest (drop (length pre) Y)
    then Some (acc1 ++ inliers_of rest (drop (length pre) X),
               acc2 ++ inliers_of rest (drop (length pre) Y))
    else None.
Proof.
  revert pre acc1 acc2.
  induction rest as [|it rest IH]; intros pre acc1 acc2 Hmask.
  - simpl. by rewrite !app_nil_r.
  - assert (Hit : inlier_mask !! length pre = Some it)
      by (rewrite Hmask; apply list_lookup_middle; reflexivity).
    assert (Hnext : inlier_mask = (pre ++ [it]) ++ rest)
      by (rewrite Hmask, <- app_assoc; reflexivity).
    assert (Hpre : length (pre ++ [it]) = S (length pre))
      by (rewrite length_app; simpl; lia).
    assert (Hdrop : ∀ Z : list Vector2d,
              match Z !! length pre with
              | Some p => drop (length pre) Z = p :: drop (S (length pre)) Z
              | None => drop (length pre) Z = []
                        ∧ drop (S (length pre)) Z = []
              end).
    { intros Z. destruct (Z !! length pre) as [p|] eqn:Hp.
      - apply drop_S. assumption.
      - apply lookup_ge_None in Hp.
        split; apply drop_ge; lia. }
    cbn [for_idx length]. rewrite Hit.
    pose proof (Hdrop X) as HX. pose proof (Hdrop Y) as HY.
    pose proof (IH (pre ++ [it])) as IH'. rewrite Hpre in IH'.
    destruct (char_true it) eqn:Hc.
    + destruct (X !! length pre) as [p1|]; destruct (Y !! length pre) as [p2|].
      * rewrite HX, HY. cbn [marks_within inliers_of fst snd]. rewrite Hc.
        rewrite IH' by assumption. unfold push_back.
        destruct (_ && _); [|reflexivity]. by rewrite <- !app_assoc.
      * destruct HY as [-> _]. rewrite HX. cbn [marks_within]. rewrite Hc.
        cbn [negb andb]. by rewrite andb_false_r.
      * destruct HX as [-> _]. cbn [marks_within]. rewrite Hc. reflexivity.
      * destruct HX as [-> _]. cbn [marks_within]. rewrite Hc. reflexivity.
    + rewrite IH' by assumption.
      assert (Hstep : ∀ Z : list Vector2d,
                match Z !! length pre with
                | Some p => drop (length pre) Z
                            = p :: drop (S (length pre)) Z
                | None => drop (length pre) Z = []
                          ∧ drop (S (length pre)) Z = []
                end ->
                marks_within (it :: rest) (drop (length pre) Z)
                = marks_within rest (drop (S (length pre)) Z)
                ∧ inliers_of (it :: rest) (drop (length pre) Z)
                  = inliers_of rest (drop (S (length pre)) Z)).
      { intros Z HZ. destruct (Z !! length pre) as [p|].
        - rewrite HZ. cbn [marks_within inliers_of]. rewrite Hc. split; reflexivity.
        - destruct HZ as [-> ->]. cbn [marks_within inliers_of].
          rewrite Hc, inliers_of_nil. split; reflexivity. }
      destruct (Hstep X HX) as [-> ->]. destruct (Hstep Y HY) as [-> ->].
      reflexivity.
Qed.

Lemma select_inliers_char (inlier_mask : list Z) (X Y : list Vector2d) :
  select_inliers inlier_mask X Y
  = if marks_within inlier_mask X && marks_within inlier_mask Y
    then Some (inliers_of inlier_mask X, inliers_of inlier_mask Y)
    else None.
Proof.
  unfold select_inliers.
  apply (select_inliers_loop inlier_mask [] inlier_mask X Y [] []).
  reflexivity.
Qed.

Lemma inliers_of_count {A : Type} (mask : list Z) (points : list A) :
  marks_within mask points = true ->
  length (inliers_of mask points) = count_true (map char_true mask).
Proof.
  revert points. induction mask as [|it mask IH]; intros points Hin;
    [reflexivity|].
  destruct points as [|p points]; cbn [marks_within] in Hin;
    cbn [inliers_of map count_true].
  - apply andb_true_iff in Hin as [Hit Hin].
    apply negb_true_iff in Hit. rewrite Hit.
    rewrite <- (IH [] Hin), inliers_of_nil. reflexivity.
  - destruct (char_true it); cbn [length]; rewrite (IH _ Hin); reflexivity.
Qed.

Lemma inliers_of_combine {A B : Type} (mask : list Z)
    (X : list A) (Y : list B) :
  marks_within mask X = true ->
  marks_within mask Y = true ->
  combine (inliers_of mask X) (inliers_of mask Y)
  = inliers_of mask (combine X Y).
Proof.
  revert X Y. induction mask as [|it mask IH]; intros X Y HX HY;
    [reflexivity|].
  destruct X as [|x X].
  - rewrite inliers_of_nil. cbn [combine]. rewrite inliers_of_nil.
    reflexivity.
  - destruct Y as [|y Y].
    + rewrite (inliers_of_nil (it :: mask)).
      replace (combine (x :: X) []) with (@nil (A * B)) by reflexivity.
      rewrite inliers_of_nil.
      destruct (inliers_of (it :: mask) (x :: X)); reflexivity.
    + cbn [marks_within] in HX, HY. cbn [inliers_of combine].
      destruct (char_true it); cbn [combine]; rewrite (IH _ _ HX HY);
        reflexivity.
Qed.

(** X1: the selection loop reads out of range exactly when the mask marks
    a position at or beyond the end of one of the two point lists; entries
    of the mask beyond the lists are harmless as long as they are zero. *)
Theorem select_inliers_out_of_range (inlier_mask : list Z)
    (world_points2D1 world_points2D2 : list Vector2d) :
  select_inliers inlier_mask world_points2D1 world_points2D2 = None
  ↔ marked_beyond inlier_mask (length world_points2D1)
    ∨ marked_beyond inlier_mask (length world_points2D2).
Proof.
  rewrite select_inliers_char, <- !marks_within_false.
  destruct (marks_within inlier_mask world_points2D1);
    destruct (marks_within inlier_mask world_points2D2); cbn [andb];
    split; try tauto; try discriminate.
  intros [Hf|Hf]; discriminate Hf.
Qed.

(** X2: when the selection loop completes, the two lists it built for pose
    recovery have one point per marked entry of the mask, and the points at
    equal positions of the two lists come from the same correspondence. *)
Theorem selected_inliers_are_paired (inlier_mask : list Z)
    (world_points2D1 world_points2D2 inlier1 inlier2 : list Vector2d) :
  select_inliers inlier_mask world_points2D1 world_points2D2
    = Some (inlier1, inlier2) ->
  length inlier1 = count_true (map char_true inlier_mask) ∧
  length inlier2 = count_true (map char_true inlier_mask) ∧
  combine inlier1 inlier2
    = inliers_of inlier_mask (combine world_points2D1 world_points2D2).
Proof.
  rewrite select_inliers_char.
  destruct (marks_within inlier_mask world_points2D1) eqn:H1;
    destruct (marks_within inlier_mask world_points2D2) eqn:H2;
    cbn [andb]; try discriminate.
  intros Hsel. injection Hsel as <- <-.
  rewrite !inliers_of_count by assumption.
  rewrite inliers_of_combine by assumption. auto.
Qed.

(** ** Further properties of the two operations *)

Section MoreProperties.

Context `{Colmap}.

(** What [essential_matrix_result] hands back, case by case. *)
Lemma essential_matrix_result_char (report : Report)
    (X Y : list Vector2d) (w : World) :
  essential_matrix_result report X Y w
  = (if success report then
       if marks_within (inlier_mask report) X
          && marks_within (inlier_mask report) Y
       then
         Returned
           (py_dict
              [("success", PyBool true);
               ("E", PyMatrix3d (model report));
               ("cam2_from_cam1",
                PyRigid3d
                  {| rotation :=
                       Quaterniond_of_matrix
                         (fst (fst (PoseFromEssentialMatrix (model report)
                                      (inliers_of (inlier_mask report) X)
                                      (inliers_of (inlier_mask report) Y))));
                     translation :=
                       snd (fst (PoseFromEssentialMatrix (model report)
                                   (inliers_of (inlier_mask report) X)
                                   (inliers_of (inlier_mask report) Y))) |});
               ("num_inliers", PyInt (num_inliers (support report)));
               ("inliers", PyBoolList (map char_true (inlier_mask report)))])
       else OutOfRange
     else Returned {["success" := PyBool false]},
     w).
Proof.
  unfold essential_matrix_result, bind, defined, ret.
  destruct (success report); cbn [negb]; [|reflexivity].
  rewrite select_inliers_char.
  destruct (_ && _); [|reflexivity]. cbn [fst snd].
  destruct (PoseFromEssentialMatrix _ _ _) as [[R t] points3D].
  rewrite mask_to_inliers_map. reflexivity.
Qed.

Lemma essential_frame (points2D1 points2D2 : list Vector2d)
    (camera1 camera2 : CameraRef) (options : RANSACOptions) (w : World) :
  cameras (snd (essential_matrix_estimation points2D1 points2D2
                  camera1 camera2 options w)) = cameras w.
Proof.
  rewrite essential_run.
  destruct (decide _); [|reflexivity].
  rewrite essential_matrix_result_frame. reflexivity.
Qed.

Lemma fundamental_frame (points2D1 points2D2 : list Vector2d)
    (options : RANSACOptions) (w : World) :
  cameras (snd (fundamental_matrix_estimation points2D1 points2D2
                  options w)) = cameras w.
Proof. rewrite fundamental_run. destruct (decide _); reflexivity. Qed.

Lemma essential_same_cameras (points2D1 points2D2 : list Vector2d)
    (camera1 camera2 : CameraRef) (options : RANSACOptions) (w1 w2 : World) :
  (∀ (seed : Z) (g1 g2 : Generator), SetPRNGSeed seed g1 = SetPRNGSeed seed g2) ->
  cameras w1 = cameras w2 ->
  essential_matrix_estimation points2D1 points2D2 camera1 camera2 options w1
  = essential_matrix_estimation points2D1 points2D2 camera1 camera2
      options w2.
Proof.
  intros Hreset Hcams. rewrite !essential_run.
  unfold essential_ransac, seeded.
  rewrite Hcams, (Hreset 0%Z (PRNG w1) (PRNG w2)). reflexivity.
Qed.

Lemma fundamental_same_cameras (points2D1 points2D2 : list Vector2d)
    (options : RANSACOptions) (w1 w2 : World) :
  (∀ (seed : Z) (g1 g2 : Generator), SetPRNGSeed seed g1 = SetPRNGSeed seed g2) ->
  cameras w1 = cameras w2 ->
  fundamental_matrix_estimation points2D1 points2D2 options w1
  = fundamental_matrix_estimation points2D1 points2D2 options w2.
Proof.
  intros Hreset Hcams. rewrite !fundamental_run.
  unfold fundamental_ransac, seeded.
  rewrite Hcams, (Hreset 0%Z (PRNG w1) (PRNG w2)). reflexivity.
Qed.

(** X3: the fundamental path never reads a vector out of range, whatever
    the engine reports; the essential path does so exactly when the lengths
    agree, the engine reports success and its mask marks a position at or
    beyond the number of correspondences. *)
Theorem out_of_range_only_on_essential_success
    (points2D1 points2D2 : list Vector2d) (camera1 camera2 : CameraRef)
    (options : RANSACOptions) (w : World) :
  let report :=
    fst (essential_ransac points2D1 points2D2 camera1 camera2 options w) in
  (fst (essential_matrix_estimation points2D1 points2D2 camera1 camera2
          options w) = OutOfRange
   ↔ length points2D1 = length points2D2 ∧ success report = true ∧
     marked_beyond (inlier_mask report) (length points2D1)) ∧
  fst (fundamental_matrix_estimation points2D1 points2D2 options w)
    ≠ OutOfRange.
Proof.
  intros report. split.
  - rewrite essential_run.
    destruct (decide (length points2D1 = length points2D2)) as [Heq|Hne].
    + rewrite essential_matrix_result_char. fold report. cbn [fst].
      rewrite <- marks_within_false.
      rewrite (marks_within_same_length _ (map _ points2D1) points2D1)
        by apply length_map.
      rewrite (marks_within_same_length _ (map _ points2D2) points2D1)
        by (rewrite length_map; lia).
      destruct (success report);
        destruct (marks_within (inlier_mask report) points2D1);
        cbn [andb]; split; try discriminate; try tauto.
      * intros (_ & _ & Hf). discriminate Hf.
      * intros (_ & Hf & _). discriminate Hf.
      * intros (_ & Hf & _). discriminate Hf.
    + cbn [fst]. split; [discriminate|]. intros (Heq & _). contradiction.
  - rewrite fundamental_run. destruct (decide _); discriminate.
Qed.

(** X5: with lists of equal length and an engine report that succeeds, the
    fundamental path returns exactly [success = True], the engine's model
    as [F], the engine's inlier count and its mask as booleans; the report
    has no [E] and no pose. *)
Theorem fundamental_success_report (points2D1 points2D2 : list Vector2d)
    (options : RANSACOptions) (w : World) :
  let report := fst (fundamental_ransac points2D1 points2D2 options w) in
  length points2D1 = length points2D2 ->
  success report = true ->
  ∃ d : PyDict,
    fst (fundamental_matrix_estimation points2D1 points2D2 options w)
      = Returned d ∧
    d !! "success" = Some (PyBool true) ∧
    d !! "F" = Some (PyMatrix3d (model report)) ∧
    d !! "num_inliers" = Some (PyInt (num_inliers (support report))) ∧
    d !! "inliers" = Some (PyBoolList (map char_true (inlier_mask report))) ∧
    dom d = {["success"; "F"; "num_inliers"; "inliers"]} ∧
    d !! "E" = None ∧ d !! "cam2_from_cam1" = None.
Proof.
  intros report Hlen Hok.
  rewrite fundamental_run. rewrite decide_True by assumption.
  cbn zeta. fold report. rewrite Hok. cbn [fst].
  eexists. split; [reflexivity|].
  do 4 (split; [reflexivity|]).
  split; [|split; reflexivity].
  rewrite !dom_insert_L, dom_singleton_L. set_solver.
Qed.

(** X7: a call is not affected by the calls made before it: provided
    seeding restarts the generator, either operation run right after any
    call of either operation ends exactly as it would have without that
    call. *)
Theorem earlier_calls_do_not_matter
    (before1 before2 points2D1 points2D2 : list Vector2d)
    (cameraA cameraB camera1 camera2 : CameraRef)
    (options_before options : RANSACOptions) (w : World) :
  (∀ (seed : Z) (g1 g2 : Generator), SetPRNGSeed seed g1 = SetPRNGSeed seed g2) ->
  let after_E :=
    snd (essential_matrix_estimation before1 before2 cameraA cameraB
           options_before w) in
  let after_F :=
    snd (fundamental_matrix_estimation before1 before2 options_before w) in
  (essential_matrix_estimation points2D1 points2D2 camera1 camera2
     options after_E
   = essential_matrix_estimation points2D1 points2D2 camera1 camera2
       options w ∧
   essential_matrix_estimation points2D1 points2D2 camera1 camera2
     options after_F
   = essential_matrix_estimation points2D1 points2D2 camera1 camera2
       options w) ∧
  (fundamental_matrix_estimation points2D1 points2D2 options after_E
   = fundamental_matrix_estimation points2D1 points2D2 options w ∧
   fundamental_matrix_estimation points2D1 points2D2 options after_F
   = fundamental_matrix_estimation points2D1 points2D2 options w).
Proof.
  intros Hreset after_E after_F.
  assert (HE : cameras after_E = cameras w) by apply essential_frame.
  assert (HF : cameras after_F = cameras w) by apply fundamental_frame.
  split; split.
  - apply essential_same_cameras; assumption.
  - apply essential_same_cameras; assumption.
  - apply fundamental_same_cameras; assumption.
  - apply fundamental_same_cameras; assumption.
Qed.

(** X8: a call that leaves out every argument that has a default gets the
    same answer from either registered overload, for both operations. *)
Theorem default_arguments_agree (est_options : RANSACOptions)
    (points2D1 points2D2 : list Vector2d) (camera1 camera2 : CameraRef) :
  essential_with_scalars (bind_essential_matrix_estimation est_options)
    points2D1 points2D2 camera1 camera2 None None None None None
  = essential_with_options (bind_essential_matrix_estimation est_options)
      points2D1 points2D2 camera1 camera2 None ∧
  fundamental_with_scalars (bind_fundamental_matrix_estimation est_options)
    points2D1 points2D2 None None None None None
  = fundamental_with_options (bind_fundamental_matrix_estimation est_options)
      points2D1 points2D2 None.
Proof.
  cbn [bind_essential_matrix_estimation bind_fundamental_matrix_estimation
       essential_with_scalars essential_with_options
       fundamental_with_scalars fundamental_with_options default].
  rewrite essential_scalars_delegate, fundamental_scalars_delegate.
  destruct est_options as [e r tmin tmax c]. split; reflexivity.
Qed.

(** X9: a report returned by either operation always has the entry
    [success], and it is the engine's success flag. *)
Theorem success_entry_mirrors_engine (points2D1 points2D2 : list Vector2d)
    (camera1 camera2 : CameraRef) (options : RANSACOptions) (w : World) :
  (∀ dE : PyDict,
     fst (essential_matrix_estimation points2D1 points2D2 camera1 camera2
            options w) = Returned dE ->
     dE !! "success"
     = Some (PyBool (success (fst (essential_ransac points2D1 points2D2
                                     camera1 camera2 options w))))) ∧
  (∀ dF : PyDict,
     fst (fundamental_matrix_estimation points2D1 points2D2 options w)
       = Returned dF ->
     dF !! "success"
     = Some (PyBool (success (fst (fundamental_ransac points2D1 points2D2
                                     options w))))).
Proof.
  rewrite essential_run, fundamental_run.
  destruct (decide (length points2D1 = length points2D2)) as [Heq|Hne];
    [|split; intros d Hd; discriminate Hd].
  rewrite essential_matrix_result_char. cbn [fst]. cbn zeta.
  split.
  - intros dE HE.
    destruct (success (fst (essential_ransac points2D1 points2D2
                              camera1 camera2 options w))).
    + match type of HE with
      | (if ?c then _ else _) = _ => destruct c; [|discriminate HE]
      end.
      injection HE as <-. reflexivity.
    + injection HE as <-. reflexivity.
  - intros dF HF.
    destruct (success (fst (fundamental_ransac points2D1 points2D2
                              options w)));
      injection HF as <-; reflexivity.
Qed.

End MoreProperties.

(** X6: the essential path never lets the triangulated points influence
    what it hands back: replacing pose recovery by one that yields the same
    rotation and translation, and any 3D points whatever, changes neither
    the outcome nor the world the call leaves. *)
Theorem report_ignores_triangulated_points (C : Colmap)
    (pose : Matrix3d -> list Vector2d -> list Vector2d ->
            Matrix3d * Vector3d * list Vector3d)
    (points2D1 points2D2 : list Vector2d) (camera1 camera2 : CameraRef)
    (options : RANSACOptions) (w : World) :
  (∀ E X Y, fst (pose E X Y) = fst (PoseFromEssentialMatrix E X Y)) ->
  let here :=
    essential_matrix_estimation points2D1 points2D2 camera1 camera2
      options w in
  let there :=
    @essential_matrix_estimation (with_pose_recovery C pose)
      points2D1 points2D2 camera1 camera2 options (same_world C pose w) in
  fst there = fst here ∧
  @PRNG (with_pose_recovery C pose) (snd there) = PRNG (snd here) ∧
  @cameras (with_pose_recovery C pose) (snd there) = cameras (snd here).
Proof.
  intros Hpose here there. subst here there.
  rewrite (@essential_run (with_pose_recovery C pose)), essential_run.
  destruct (decide (length points2D1 = length points2D2)) as [Heq|Hne];
    [|repeat split].
  rewrite (@essential_matrix_result_char (with_pose_recovery C pose)),
    essential_matrix_result_char.
  unfold essential_ransac, normalized_max_error, same_world.
  cbn [with_pose_recovery Generator Camera SetPRNGSeed CamFromImg
       MeanFocalLength LORANSAC_E5_E5 PoseFromEssentialMatrix
       Quaterniond_of_matrix PRNG cameras fst snd].
  rewrite !Hpose. repeat split.
Qed.

(** ** The order of the calls *)

Section Order.

Context `{Colmap}.

Lemma traced_image_to_world_from (camera : CameraRef) (w : World)
    (points2D pre rest world_points2D : list Vector2d) (calls : list Event) :
  points2D = pre ++ rest ->
  for_idx
    (fun idx (acc : list Vector2d * list Event) =>
       match points2D !! idx with
       | Some p =>
           Some (push_back (fst acc) (CamFromImg (cameras w camera) p),
                 push_back (snd acc) (CallCamFromImg camera p))
       | None => None
       end)
    (length pre) (length rest) (world_points2D, calls)
  = Some (world_points2D ++ map (CamFromImg (cameras w camera)) rest,
          calls ++ map (CallCamFromImg camera) rest).
Proof.
  revert pre world_points2D calls.
  induction rest as [|p rest IH]; intros pre acc calls Hsplit; simpl.
  - by rewrite !app_nil_r.
  - assert (Hp : points2D !! length pre = Some p)
      by (rewrite Hsplit; apply list_lookup_middle; reflexivity).
    rewrite Hp.
    replace (S (length pre)) with (length (pre ++ [p]))
      by (rewrite length_app; simpl; lia).
    rewrite IH by (rewrite Hsplit, <- app_assoc; reflexivity).
    unfold push_back. by rewrite <- !app_assoc.
Qed.

Lemma traced_image_to_world_run (camera : CameraRef)
    (points2D : list Vector2d) (w : World) :
  traced_image_to_world camera points2D w
  = (Returned (map (CamFromImg (cameras w camera)) points2D), w,
     map (CallCamFromImg camera) points2D).
Proof.
  unfold traced_image_to_world.
  pose proof (traced_image_to_world_from camera w points2D [] points2D
                [] [] eq_refl) as Hloop.
  cbn [length app] in Hloop. rewrite Hloop. reflexivity.
Qed.

(** The calls of lines 64 to 112. *)
Lemma traced_essential_matrix_result_run (report : Report)
    (X Y : list Vector2d) (w : World) :
  traced_essential_matrix_result report X Y w
  = (essential_matrix_result report X Y w,
     if success report
        && (marks_within (inlier_mask report) X
            && marks_within (inlier_mask report) Y)
     then
       [CallPoseFromEssentialMatrix (model report)
          (inliers_of (inlier_mask report) X)
          (inliers_of (inlier_mask report) Y);
        CallQuaterniond
          (fst (fst (PoseFromEssentialMatrix (model report)
                       (inliers_of (inlier_mask report) X)
                       (inliers_of (inlier_mask report) Y))))]
     else []).
Proof.
  unfold traced_essential_matrix_result, essential_matrix_result,
    and_then, bind, quiet, recorded, defined, ret.
  destruct (success report); cbn [negb andb]; [|reflexivity].
  rewrite select_inliers_char.
  destruct (_ && _); [|reflexivity]. cbn [fst snd].
  destruct (PoseFromEssentialMatrix _ _ _) as [[R t] points3D].
  reflexivity.
Qed.

(** The calls of [essential_matrix_estimation], and what it hands back. *)
Lemma traced_essential_run (points2D1 points2D2 : list Vector2d)
    (camera1 camera2 : CameraRef) (options : RANSACOptions) (w : World) :
  traced_essential_matrix_estimation points2D1 points2D2 camera1 camera2
    options w
  = (essential_matrix_estimation points2D1 points2D2 camera1 camera2
       options w,
     CallSetPRNGSeed 0 ::
     if decide (length points2D1 = length points2D2) then
       let report :=
         fst (essential_ransac points2D1 points2D2 camera1 camera2
                options w) in
       let X := map (CamFromImg (cameras w camera1)) points2D1 in
       let Y := map (CamFromImg (cameras w camera2)) points2D2 in
       map (CallCamFromImg camera1) points2D1 ++
       map (CallCamFromImg camera2) points2D2 ++
       [CallMeanFocalLength camera1; CallMeanFocalLength camera2;
        CallEstimate E5_E5
          (set_max_error
             (normalized_max_error (cameras w camera1) (cameras w camera2)
                (max_error options)) options) X Y] ++
       (if success report
           && (marks_within (inlier_mask report) X
               && marks_within (inlier_mask report) Y)
        then
          [CallPoseFromEssentialMatrix (model report)
             (inliers_of (inlier_mask report) X)
             (inliers_of (inlier_mask report) Y);
           CallQuaterniond
             (fst (fst (PoseFromEssentialMatrix (model report)
                          (inliers_of (inlier_mask report) X)
                          (inliers_of (inlier_mask report) Y))))]
        else [])
     else []).
Proof.
  rewrite essential_run.
  unfold traced_essential_matrix_estimation, call_MeanFocalLength,
    and_then, recorded, quiet, seed_PRNG, THROW_CHECK_EQ.
  destruct (decide (length points2D1 = length points2D2)) as [Heq|Hne];
    [|reflexivity].
  rewrite !traced_image_to_world_run. cbn [cameras].
  unfold Estimate, essential_ransac, normalized_max_error. cbn [PRNG cameras].
  destruct (LORANSAC_E5_E5 _ _ _ _) as [report g]. cbn [fst snd].
  rewrite traced_essential_matrix_result_run. cbn [app].
  reflexivity.
Qed.

(** The calls of [fundamental_matrix_estimation], and what it hands back. *)
Lemma traced_fundamental_run (points2D1 points2D2 : list Vector2d)
    (options : RANSACOptions) (w : World) :
  traced_fundamental_matrix_estimation points2D1 points2D2 options w
  = (fundamental_matrix_estimation points2D1 points2D2 options w,
     CallSetPRNGSeed 0 ::
     if decide (length points2D1 = length points2D2) then
       [CallEstimate F7_F8 options points2D1 points2D2]
     else []).
Proof.
  unfold traced_fundamental_matrix_estimation, fundamental_matrix_estimation,
    and_then, bind, recorded, quiet, seed_PRNG, THROW_CHECK_EQ.
  destruct (decide (length points2D1 = length points2D2)) as [Heq|Hne];
    [|reflexivity].
  unfold Estimate. cbn [PRNG cameras].
  destruct (LORANSAC_F7_F8 _ _ _ _) as [report g].
  destruct (success report); reflexivity.
Qed.

End Order.

(** ** Rejection, normalization and the successful report *)

Section Reports.

Context `{Colmap}.

Lemma traced_essential_scalars_delegate (points2D1 points2D2 : list Vector2d)
    (camera1 camera2 : CameraRef) (max_error_px min_inlier_ratio : double)
    (min_num_trials max_num_trials : Z) (confidence : double) :
  traced_essential_matrix_estimation_scalars points2D1 points2D2
    camera1 camera2
    max_error_px min_inlier_ratio min_num_trials max_num_trials confidence
  = traced_essential_matrix_estimation points2D1 points2D2 camera1 camera2
      {| max_error := max_error_px;
         min_inlier_ratio := min_inlier_ratio;
         min_num_trials := min_num_trials;
         max_num_trials := max_num_trials;
         confidence := confidence |}.
Proof. reflexivity. Qed.

Lemma traced_fundamental_scalars_delegate (points2D1 points2D2 : list Vector2d)
    (max_error_px min_inlier_ratio : double)
    (min_num_trials max_num_trials : Z) (confidence : double) :
  traced_fundamental_matrix_estimation_scalars points2D1 points2D2
    max_error_px min_inlier_ratio min_num_trials max_num_trials confidence
  = traced_fundamental_matrix_estimation points2D1 points2D2
      {| max_error := max_error_px;
         min_inlier_ratio := min_inlier_ratio;
         min_num_trials := min_num_trials;
         max_num_trials := max_num_trials;
         confidence := confidence |}.
Proof. reflexivity. Qed.

(** The entries of the dictionary of lines 107 to 111. *)
Lemma essential_success_entries (E : Matrix3d) (pose : Rigid3d) (k : Z)
    (inliers : list bool) :
  let d :=
    py_dict [("success", PyBool true);
             ("E", PyMatrix3d E);
             ("cam2_from_cam1", PyRigid3d pose);
             ("num_inliers", PyInt k);
             ("inliers", PyBoolList inliers)] in
  d !! "success" = Some (PyBool true) ∧
  d !! "E" = Some (PyMatrix3d E) ∧
  d !! "cam2_from_cam1" = Some (PyRigid3d pose) ∧
  d !! "num_inliers" = Some (PyInt k) ∧
  d !! "inliers" = Some (PyBoolList inliers) ∧
  dom d = {["success"; "E"; "cam2_from_cam1"; "num_inliers"; "inliers"]}.
Proof.
  intros d. subst d. unfold py_dict. cbn [list_to_map foldr].
  do 5 (split; [reflexivity|]).
  rewrite !dom_insert_L, dom_empty_L. set_solver.
Qed.

Lemma marks_within_true {A : Type} (mask : list Z) (points : list A) :
  marks_within mask points = true ↔ ¬ marked_beyond mask (length points).
Proof.
  rewrite <- marks_within_false.
  destruct (marks_within mask points); split; try tauto; try discriminate.
Qed.

(** What an accepted call of the essential path hands back, in terms of
    the engine's report. *)
Lemma essential_accepted (points2D1 points2D2 : list Vector2d)
    (camera1 camera2 : CameraRef) (options : RANSACOptions) (w : World) :
  length points2D1 = length points2D2 ->
  let report :=
    fst (essential_ransac points2D1 points2D2 camera1 camera2 options w) in
  let X := map (CamFromImg (cameras w camera1)) points2D1 in
  let Y := map (CamFromImg (cameras w camera2)) points2D2 in
  fst (essential_matrix_estimation points2D1 points2D2 camera1 camera2
         options w)
  = if success report then
      if marks_within (inlier_mask report) points2D1 then
        Returned
          (py_dict
             [("success", PyBool true);
              ("E", PyMatrix3d (model report));
              ("cam2_from_cam1",
               PyRigid3d
                 {| rotation :=
                      Quaterniond_of_matrix
                        (fst (fst (PoseFromEssentialMatrix (model report)
                                     (inliers_of (inlier_mask report) X)
                                     (inliers_of (inlier_mask report) Y))));
                    translation :=
                      snd (fst (PoseFromEssentialMatrix (model report)
                                  (inliers_of (inlier_mask report) X)
                                  (inliers_of (inlier_mask report) Y))) |});
              ("num_inliers", PyInt (num_inliers (support report)));
              ("inliers", PyBoolList (map char_true (inlier_mask report)))])
      else OutOfRange
    else Returned {["success" := PyBool false]}.
Proof.
  intros Hlen report X Y.
  rewrite essential_run. rewrite decide_True by assumption.
  rewrite essential_matrix_result_char. fold report X Y. cbn [fst].
  rewrite (marks_within_same_length _ X points2D1)
    by (subst X; apply length_map).
  rewrite (marks_within_same_length _ Y points2D1)
    by (subst Y; rewrite length_map; lia).
  rewrite andb_diag. reflexivity.
Qed.

(** The calls of an accepted call of the essential path that succeeds and
    returns. *)
Lemma essential_accepted_calls (points2D1 points2D2 : list Vector2d)
    (camera1 camera2 : CameraRef) (options : RANSACOptions) (w : World) :
  length points2D1 = length points2D2 ->
  let report :=
    fst (essential_ransac points2D1 points2D2 camera1 camera2 options w) in
  let X := map (CamFromImg (cameras w camera1)) points2D1 in
  let Y := map (CamFromImg (cameras w camera2)) points2D2 in
  success report = true ->
  marks_within (inlier_mask report) points2D1 = true ->
  ∃ before : list Event,
    snd (traced_essential_matrix_estimation points2D1 points2D2
           camera1 camera2 options w)
    = before ++
      [CallPoseFromEssentialMatrix (model report)
         (inliers_of (inlier_mask report) X)
         (inliers_of (inlier_mask report) Y);
       CallQuaterniond
         (fst (fst (PoseFromEssentialMatrix (model report)
                      (inliers_of (inlier_mask report) X)
                      (inliers_of (inlier_mask report) Y))))].
Proof.
  intros Hlen report X Y Hok Hin.
  rewrite traced_essential_run. cbn [snd].
  rewrite decide_True by assumption. cbn zeta. fold report X Y.
  rewrite (marks_within_same_length _ X points2D1)
    by (subst X; apply length_map).
  rewrite (marks_within_same_length _ Y points2D1)
    by (subst Y; rewrite length_map; lia).
  rewrite Hok, Hin. cbn [andb].
  exists (CallSetPRNGSeed 0 ::
          map (CallCamFromImg camera1) points2D1 ++
          map (CallCamFromImg camera2) points2D2 ++
          [CallMeanFocalLength camera1; CallMeanFocalLength camera2;
           CallEstimate E5_E5
             (set_max_error
                (normalized_max_error (cameras w camera1) (cameras w camera2)
                   (max_error options)) options) X Y]).
  cbn [app]. rewrite <- !app_assoc. reflexivity.
Qed.

(** C1, amended: in each of the four call shapes, lists of different
    lengths make the call throw the precondition violation and return
    nothing; the one call made before the violation is [SetPRNGSeed(0)],
    so the generator is reseeded and nothing else has run: no
    normalization, no engine, no pose recovery. *)
Theorem length_mismatch_is_rejected_after_seeding
    (points2D1 points2D2 : list Vector2d)
    (camera1 camera2 : CameraRef) (options : RANSACOptions)
    (max_error_px min_inlier_ratio : double)
    (min_num_trials max_num_trials : Z) (confidence : double) (w : World) :
  length points2D1 ≠ length points2D2 ->
  let rejected : Outcome PyDict * World :=
    (Thrown PreconditionViolation,
     {| PRNG := SetPRNGSeed 0 (PRNG w); cameras := cameras w |}) in
  (traced_essential_matrix_estimation points2D1 points2D2 camera1 camera2
     options w = (rejected, [CallSetPRNGSeed 0]) ∧
   traced_essential_matrix_estimation_scalars points2D1 points2D2
     camera1 camera2 max_error_px min_inlier_ratio min_num_trials
     max_num_trials confidence w = (rejected, [CallSetPRNGSeed 0]) ∧
   traced_fundamental_matrix_estimation points2D1 points2D2 options w
     = (rejected, [CallSetPRNGSeed 0]) ∧
   traced_fundamental_matrix_estimation_scalars points2D1 points2D2
     max_error_px min_inlier_ratio min_num_trials max_num_trials confidence w
     = (rejected, [CallSetPRNGSeed 0])) ∧
  (essential_matrix_estimation points2D1 points2D2 camera1 camera2 options w
     = rejected ∧
   essential_matrix_estimation_scalars points2D1 points2D2 camera1 camera2
     max_error_px min_inlier_ratio min_num_trials max_num_trials confidence w
     = rejected ∧
   fundamental_matrix_estimation points2D1 points2D2 options w = rejected ∧
   fundamental_matrix_estimation_scalars points2D1 points2D2
     max_error_px min_inlier_ratio min_num_trials max_num_trials confidence w
     = rejected).
Proof.
  intros Hne rejected. subst rejected.
  rewrite traced_essential_scalars_delegate,
    traced_fundamental_scalars_delegate.
  rewrite essential_scalars_delegate, fundamental_scalars_delegate.
  rewrite !traced_essential_run, !traced_fundamental_run.
  rewrite !essential_run, !fundamental_run.
  destruct (decide (length points2D1 = length points2D2)) as [Heq|_];
    [contradiction|].
  unfold seeded. repeat split.
Qed.

(** C4: with lists of equal length, the calls of the essential path are, in
    order: the seeding, [CamFromImg] on every pixel of the first list with
    the first camera, then on every pixel of the second list with the
    second camera, the reads of the two mean focal lengths, and then the
    engine, on the images of the pixels and with [max_error] replaced by
    [0.5 * (max_error / f1 + max_error / f2)], the other options kept.
    The generator is left as that run of the engine left it from the
    seeded state, and what is handed back is built from its report. *)
Theorem essential_engine_runs_on_normalized_input
    (points2D1 points2D2 : list Vector2d) (camera1 camera2 : CameraRef)
    (options : RANSACOptions) (w : World) :
  length points2D1 = length points2D2 ->
  let cam1 := cameras w camera1 in
  let cam2 := cameras w camera2 in
  let world_points2D1 := map (CamFromImg cam1) points2D1 in
  let world_points2D2 := map (CamFromImg cam2) points2D2 in
  let threshold :=
    (0.5 * (max_error options / MeanFocalLength cam1 +
            max_error options / MeanFocalLength cam2))%float in
  let ransac_options :=
    {| max_error := threshold;
       min_inlier_ratio := min_inlier_ratio options;
       min_num_trials := min_num_trials options;
       max_num_trials := max_num_trials options;
       confidence := confidence options |} in
  let run :=
    LORANSAC_E5_E5 ransac_options world_points2D1 world_points2D2
      (SetPRNGSeed 0 (PRNG w)) in
  let call :=
    essential_matrix_estimation points2D1 points2D2 camera1 camera2
      options w in
  (∃ between after : list Event,
     snd (traced_essential_matrix_estimation points2D1 points2D2
            camera1 camera2 options w)
     = CallSetPRNGSeed 0 ::
       map (CallCamFromImg camera1) points2D1 ++
       map (CallCamFromImg camera2) points2D2 ++
       between ++
       CallEstimate E5_E5 ransac_options world_points2D1 world_points2D2 ::
       after ∧
     Forall (fun e => ∃ camera, e = CallMeanFocalLength camera) between) ∧
  call = essential_matrix_result (fst run) world_points2D1 world_points2D2
           {| PRNG := snd run; cameras := cameras w |} ∧
  PRNG (snd call) = snd run ∧
  (∀ d : PyDict,
     fst call = Returned d ->
     d !! "success" = Some (PyBool (success (fst run))) ∧
     (success (fst run) = true ->
      d !! "E" = Some (PyMatrix3d (model (fst run))) ∧
      d !! "num_inliers" = Some (PyInt (num_inliers (support (fst run)))) ∧
      d !! "inliers"
      = Some (PyBoolList (map char_true (inlier_mask (fst run)))))).
Proof.
  intros Hlen cam1 cam2 X Y threshold ransac_options run call.
  assert (Hrun : essential_ransac points2D1 points2D2 camera1 camera2
                   options w = run) by reflexivity.
  assert (Hcall : call = essential_matrix_result (fst run) X Y
                           {| PRNG := snd run; cameras := cameras w |}).
  { subst call. rewrite essential_run. rewrite decide_True by assumption.
    rewrite Hrun. reflexivity. }
  split; [|split; [exact Hcall|split]].
  - rewrite traced_essential_run. cbn [snd].
    rewrite decide_True by assumption. cbn zeta.
    eexists [CallMeanFocalLength camera1; CallMeanFocalLength camera2], _.
    split; [reflexivity|].
    repeat constructor; eexists; reflexivity.
  - rewrite Hcall, essential_matrix_result_frame. reflexivity.
  - intros d Hd. subst call.
    rewrite (essential_accepted _ _ _ _ _ _ Hlen), Hrun in Hd.
    destruct (success (fst run)).
    + destruct (marks_within _ _); [|discriminate Hd].
      injection Hd as <-.
      destruct (essential_success_entries (model (fst run))
                  {| rotation :=
                       Quaterniond_of_matrix
                         (fst (fst (PoseFromEssentialMatrix (model (fst run))
                                      (inliers_of (inlier_mask (fst run)) X)
                                      (inliers_of (inlier_mask (fst run)) Y))));
                     translation :=
                       snd (fst (PoseFromEssentialMatrix (model (fst run))
                                   (inliers_of (inlier_mask (fst run)) X)
                                   (inliers_of (inlier_mask (fst run)) Y))) |}
                  (num_inliers (support (fst run)))
                  (map char_true (inlier_mask (fst run))))
        as (Hs & HE & _ & Hk & Hl & _).
      split; [exact Hs|]. intros _. split; [exact HE|].
      split; [exact Hk | exact Hl].
    + injection Hd as <-. split; [reflexivity|]. intros Hf. discriminate Hf.
Qed.


(** C6: with lists of equal length and an engine report that succeeds, the
    essential path returns a report exactly when the mask marks no
    position beyond the correspondences.  For the report it returns: its
    last two calls are pose recovery, on the engine's model and on the
    normalized points that the mask marks, first list and second list, in
    order, and the conversion of the recovered rotation to a quaternion;
    its entries are [success = True], the engine's model as [E],
    [cam2_from_cam1] made of that quaternion and of the recovered
    translation, the engine's inlier count and its mask as booleans, and
    no other. *)
Theorem essential_success_report (points2D1 points2D2 : list Vector2d)
    (camera1 camera2 : CameraRef) (options : RANSACOptions) (w : World) :
  let report :=
    fst (essential_ransac points2D1 points2D2 camera1 camera2 options w) in
  let world_points2D1 := map (CamFromImg (cameras w camera1)) points2D1 in
  let world_points2D2 := map (CamFromImg (cameras w camera2)) points2D2 in
  let inlier1 := inliers_of (inlier_mask report) world_points2D1 in
  let inlier2 := inliers_of (inlier_mask report) world_points2D2 in
  let recovered := PoseFromEssentialMatrix (model report) inlier1 inlier2 in
  let call :=
    fst (essential_matrix_estimation points2D1 points2D2 camera1 camera2
           options w) in
  length points2D1 = length points2D2 ->
  success report = true ->
  ((∃ d : PyDict, call = Returned d)
   ↔ ¬ marked_beyond (inlier_mask report) (length points2D1)) ∧
  (∀ d : PyDict,
     call = Returned d ->
     (∃ before : list Event,
        snd (traced_essential_matrix_estimation points2D1 points2D2
               camera1 camera2 options w)
        = before ++
          [CallPoseFromEssentialMatrix (model report) inlier1 inlier2;
           CallQuaterniond (fst (fst recovered))]) ∧
     d !! "success" = Some (PyBool true) ∧
     d !! "E" = Some (PyMatrix3d (model report)) ∧
     d !! "cam2_from_cam1"
     = Some (PyRigid3d
               {| rotation := Quaterniond_of_matrix (fst (fst recovered));
                  translation := snd (fst recovered) |}) ∧
     d !! "num_inliers" = Some (PyInt (num_inliers (support report))) ∧
     d !! "inliers" = Some (PyBoolList (map char_true (inlier_mask report))) ∧
     dom d = {["success"; "E"; "cam2_from_cam1"; "num_inliers"; "inliers"]}).
Proof.
  intros report X Y inlier1 inlier2 recovered call Hlen Hok.
  pose proof (essential_accepted _ _ camera1 camera2 options w Hlen) as Hrun.
  cbn zeta in Hrun. fold report X Y inlier1 inlier2 recovered call in Hrun.
  rewrite Hok in Hrun.
  pose proof (essential_accepted_calls _ _ camera1 camera2 options w Hlen)
    as Hcalls.
  cbn zeta in Hcalls. fold report X Y inlier1 inlier2 recovered in Hcalls.
  specialize (Hcalls Hok).
  rewrite <- marks_within_true.
  destruct (marks_within (inlier_mask report) points2D1).
  - split; [split; [reflexivity | intros _; eexists; exact Hrun]|].
    intros d Hd. rewrite Hrun in Hd. injection Hd as Hd.
    split; [apply Hcalls; reflexivity|].
    rewrite <- Hd. apply essential_success_entries.
  - split.
    + split; [|discriminate].
      intros [d Hd]. rewrite Hrun in Hd. discriminate Hd.
    + intros d Hd. rewrite Hrun in Hd. discriminate Hd.
Qed.

(** C7: when pose recovery triangulates every pair it is given, the pose
    result of a successful estimation on the essential path holds, next to
    the rotation and the translation that the returned [cam2_from_cam1] is
    made of, one triangulated point per inlier: pose recovery is called on
    the correspondences that the mask marks, and its third output has as
    many points as the returned mask has entries that are [True]. *)
Theorem pose_result_has_one_point_per_inlier
    (points2D1 points2D2 : list Vector2d) (camera1 camera2 : CameraRef)
    (options : RANSACOptions) (w : World) (d : PyDict) :
  pose_triangulates_every_pair ->
  let report :=
    fst (essential_ransac points2D1 points2D2 camera1 camera2 options w) in
  let world_points2D1 := map (CamFromImg (cameras w camera1)) points2D1 in
  let world_points2D2 := map (CamFromImg (cameras w camera2)) points2D2 in
  let inlier1 := inliers_of (inlier_mask report) world_points2D1 in
  let inlier2 := inliers_of (inlier_mask report) world_points2D2 in
  let recovered := PoseFromEssentialMatrix (model report) inlier1 inlier2 in
  length points2D1 = length points2D2 ->
  success report = true ->
  fst (essential_matrix_estimation points2D1 points2D2 camera1 camera2
         options w) = Returned d ->
  (∃ before : list Event,
     snd (traced_essential_matrix_estimation points2D1 points2D2
            camera1 camera2 options w)
     = before ++
       [CallPoseFromEssentialMatrix (model report) inlier1 inlier2;
        CallQuaterniond (fst (fst recovered))]) ∧
  d !! "cam2_from_cam1"
  = Some (PyRigid3d
            {| rotation := Quaterniond_of_matrix (fst (fst recovered));
               translation := snd (fst recovered) |}) ∧
  (∃ inliers : list bool,
     d !! "inliers" = Some (PyBoolList inliers) ∧
     length (snd recovered) = count_true inliers).
Proof.
  intros Hpose report X Y inlier1 inlier2 recovered Hlen Hok Hd.
  pose proof (essential_accepted _ _ camera1 camera2 options w Hlen) as Hrun.
  cbn zeta in Hrun. fold report X Y inlier1 inlier2 recovered in Hrun.
  rewrite Hok, Hd in Hrun.
  pose proof (essential_accepted_calls _ _ camera1 camera2 options w Hlen)
    as Hcalls.
  cbn zeta in Hcalls. fold report X Y inlier1 inlier2 recovered in Hcalls.
  specialize (Hcalls Hok).
  destruct (marks_within (inlier_mask report) points2D1) eqn:Hin;
    [|discriminate Hrun].
  injection Hrun as ->.
  split; [apply Hcalls; reflexivity|].
  split; [apply essential_success_entries|].
  exists (map char_true (inlier_mask report)).
  split; [apply essential_success_entries|].
  subst recovered. rewrite Hpose. subst inlier1.
  apply inliers_of_count.
  rewrite (marks_within_same_length _ X points2D1)
    by (subst X; apply length_map).
  exact Hin.
Qed.

End Reports.

(** ** The operations on the small instance *)

#[local] Existing Instance Demo.colmap.

Lemma demo_essential_run :
  essential_matrix_estimation Demo.points1 Demo.points2 0 1 Demo.options
    (Demo.world 42)
  = (Returned Demo.essential_report, Demo.world 1).
Proof. vm_compute. reflexivity. Qed.



Lemma demo_fundamental_too_few :
  fundamental_matrix_estimation Demo.few1 Demo.few2 Demo.options
    (Demo.world 42)
  = (Returned {["success" := PyBool false]}, Demo.world 0).
Proof. vm_compute. reflexivity. Qed.


(** C3 at work: two correspondences. *)
Lemma failed_estimation_reports_only_failure_witness :
  fst (essential_matrix_estimation Demo.few1 Demo.few2 0 1 Demo.options
         (Demo.world 42)) = Returned {["success" := PyBool false]} ∧
  fst (fundamental_matrix_estimation Demo.few1 Demo.few2 Demo.options
         (Demo.world 42)) = Returned {["success" := PyBool false]}.
Proof.
  destruct (failed_estimation_reports_only_failure (H := Demo.colmap)
              Demo.few1 Demo.few2 0 1 Demo.options (Demo.world 42) eq_refl)
    as [HE HF].
  split; [apply HE | apply HF]; vm_compute; reflexivity.
Defined.

(** C5 at work: from generator states 1 and 99. *)
Lemma estimation_is_reproducible_witness :
  essential_matrix_estimation Demo.points1 Demo.points2 0 1 Demo.options
    (Demo.world 1)
  = essential_matrix_estimation Demo.points1 Demo.points2 0 1 Demo.options
      (Demo.world 99) ∧
  fundamental_matrix_estimation Demo.points1 Demo.points2 Demo.options
    (Demo.world 1)
  = fundamental_matrix_estimation Demo.points1 Demo.points2 Demo.options
      (Demo.world 99).
Proof.
  destruct (estimation_is_reproducible (H := Demo.colmap)
              Demo.points1 Demo.points2 0 1 Demo.options
              2 0.5 50 500 0.75 (Demo.world 1) (Demo.world 99)
              (fun seed g1 g2 => eq_refl) eq_refl)
    as (HE & _ & HF & _).
  split; [exact HE | exact HF].
Defined.

(** C9 at work. *)
Lemma scalar_overload_agrees_with_options_overload_witness :
  essential_matrix_estimation_scalars Demo.points1 Demo.points2 0 1
    2 0.5 50 500 0.75
  = essential_matrix_estimation Demo.points1 Demo.points2 0 1
      {| max_error := 2; min_inlier_ratio := 0.5; min_num_trials := 50;
         max_num_trials := 500; confidence := 0.75 |} ∧
  fundamental_matrix_estimation_scalars Demo.points1 Demo.points2
    2 0.5 50 500 0.75
  = fundamental_matrix_estimation Demo.points1 Demo.points2
      {| max_error := 2; min_inlier_ratio := 0.5; min_num_trials := 50;
         max_num_trials := 500; confidence := 0.75 |}.
Proof.
  exact (scalar_overload_agrees_with_options_overload (H := Demo.colmap)
           Demo.points1 Demo.points2 0 1
           {| max_error := 2; min_inlier_ratio := 0.5; min_num_trials := 50;
              max_num_trials := 500; confidence := 0.75 |}
           2 0.5 50 500 0.75 eq_refl eq_refl eq_refl eq_refl eq_refl).
Defined.

(** X1 at work: a fourth mark has no point to go with it. *)
Lemma demo_selection_out_of_range :
  select_inliers [1; 0; 2; 1]%Z Demo.three1 Demo.three2 = None.
Proof. reflexivity. Qed.

(** X2 at work: the mask is longer than the lists, its last entry is 0. *)
Lemma selected_inliers_are_paired_witness :
  select_inliers Demo.long_mask Demo.three1 Demo.three2
    = Some ([(0, 0); (4, 0)]%float, [(4, 0); (12, 0)]%float) ∧
  combine [(0, 0); (4, 0)]%float [(4, 0); (12, 0)]%float
    = inliers_of Demo.long_mask (combine Demo.three1 Demo.three2).
Proof.
  assert (Hsel : select_inliers Demo.long_mask Demo.three1 Demo.three2
                 = Some ([(0, 0); (4, 0)]%float, [(4, 0); (12, 0)]%float))
    by reflexivity.
  split; [exact Hsel|].
  exact (proj2 (proj2 (selected_inliers_are_paired _ _ _ _ _ Hsel))).
Defined.

(** X5 at work: the eight correspondences. *)
Lemma fundamental_success_report_witness :
  ∃ d : PyDict,
    fst (fundamental_matrix_estimation Demo.points1 Demo.points2
           Demo.options (Demo.world 42)) = Returned d ∧
    d !! "num_inliers" = Some (PyInt 5) ∧
    d !! "E" = None ∧ d !! "cam2_from_cam1" = None.
Proof.
  destruct (fundamental_success_report (H := Demo.colmap)
              Demo.points1 Demo.points2 Demo.options (Demo.world 42)
              eq_refl eq_refl)
    as (d & Hrun & _ & _ & Hnum & _ & _ & HE & Hpose).
  exists d. split; [exact Hrun|]. split; [exact Hnum|].
  split; [exact HE | exact Hpose].
Defined.

(** X6 at work: pose recovery that triangulates nothing. *)
Lemma report_ignores_triangulated_points_witness :
  fst (@essential_matrix_estimation
         (with_pose_recovery Demo.colmap Demo.pose_without_points)
         Demo.points1 Demo.points2 0 1 Demo.options
         (same_world Demo.colmap Demo.pose_without_points (Demo.world 42)))
  = Returned Demo.essential_report.
Proof.
  destruct (report_ignores_triangulated_points Demo.colmap
              Demo.pose_without_points Demo.points1 Demo.points2 0 1
              Demo.options (Demo.world 42) (fun E X Y => eq_refl))
    as (Hfst & _ & _).
  rewrite Hfst, demo_essential_run. reflexivity.
Defined.

(** X7 at work: the eight correspondences after a call on two. *)
Lemma earlier_calls_do_not_matter_witness :
  essential_matrix_estimation Demo.points1 Demo.points2 0 1 Demo.options
    (snd (fundamental_matrix_estimation Demo.few1 Demo.few2 Demo.options
            (Demo.world 42)))
  = (Returned Demo.essential_report, Demo.world 1).
Proof.
  destruct (earlier_calls_do_not_matter (H := Demo.colmap)
              Demo.few1 Demo.few2 Demo.points1 Demo.points2 0 1 0 1
              Demo.options Demo.options (Demo.world 42)
              (fun seed g1 g2 => eq_refl))
    as ((_ & HF) & _).
  rewrite HF. apply demo_essential_run.
Defined.

(** X9 at work: a success and a failure. *)
Lemma success_entry_mirrors_engine_witness :
  Demo.essential_report !! "success" = Some (PyBool true) ∧
  ({["success" := PyBool false]} : PyDict) !! "success"
    = Some (PyBool false).
Proof.
  split.
  - apply (proj1 (success_entry_mirrors_engine (H := Demo.colmap)
                    Demo.points1 Demo.points2 0 1 Demo.options
                    (Demo.world 42))).
    rewrite demo_essential_run. reflexivity.
  - apply (proj2 (success_entry_mirrors_engine (H := Demo.colmap)
                    Demo.few1 Demo.few2 0 1 Demo.options (Demo.world 42))).
    rewrite demo_fundamental_too_few. reflexivity.
Defined.

(** C1 as stated fails: when eight points meet two, the violation is
    signaled, but by then [SetPRNGSeed(0)] has been called and the
    generator, at 42 before the call, is at 0. *)
Lemma rejected_call_has_already_seeded :
  traced_essential_matrix_estimation Demo.points1 Demo.few2 0 1 Demo.options
    (Demo.world 42)
  = (Thrown PreconditionViolation, Demo.world 0, [CallSetPRNGSeed 0]) ∧
  ¬ signaled_before_any_computation (Demo.world 42)
      (traced_essential_matrix_estimation Demo.points1 Demo.few2 0 1
         Demo.options (Demo.world 42)) ∧
  ¬ signaled_before_any_computation (Demo.world 42)
      (traced_fundamental_matrix_estimation Demo.points1 Demo.few2
         Demo.options (Demo.world 42)).
Proof.
  split; [reflexivity|].
  split; intros (_ & _ & Hcalls); vm_compute in Hcalls; discriminate Hcalls.
Qed.

(** C1, amended, at work: eight points against two. *)
Lemma length_mismatch_is_rejected_after_seeding_witness :
  length Demo.points1 ≠ length Demo.few2 ∧
  traced_essential_matrix_estimation Demo.points1 Demo.few2 0 1 Demo.options
    (Demo.world 42)
  = (Thrown PreconditionViolation, Demo.world 0, [CallSetPRNGSeed 0]) ∧
  traced_fundamental_matrix_estimation_scalars Demo.points1 Demo.few2
    2 0.5 50 500 0.75 (Demo.world 42)
  = (Thrown PreconditionViolation, Demo.world 0, [CallSetPRNGSeed 0]) ∧
  fundamental_matrix_estimation Demo.points1 Demo.few2 Demo.options
    (Demo.world 42) = (Thrown PreconditionViolation, Demo.world 0).
Proof.
  assert (Hne : length Demo.points1 ≠ length Demo.few2) by (simpl; lia).
  split; [exact Hne|].
  destruct (length_mismatch_is_rejected_after_seeding (H := Demo.colmap)
              Demo.points1 Demo.few2 0 1 Demo.options
              2 0.5 50 500 0.75 (Demo.world 42) Hne)
    as ((HE & _ & _ & HF) & (_ & _ & HF' & _)).
  split; [exact HE|]. split; [exact HF | exact HF'].
Defined.


(** C4 at work: focal lengths 2 and 4 turn 4 pixels into 1.5. *)
Lemma essential_engine_runs_on_normalized_input_witness :
  let X := map (Demo.cam_from_img (Demo.camera_at 0)) Demo.points1 in
  let Y := map (Demo.cam_from_img (Demo.camera_at 1)) Demo.points2 in
  let ransac_options :=
    {| max_error := 1.5;
       min_inlier_ratio := min_inlier_ratio Demo.options;
       min_num_trials := min_num_trials Demo.options;
       max_num_trials := max_num_trials Demo.options;
       confidence := confidence Demo.options |} in
  (∃ between after : list Event,
     snd (traced_essential_matrix_estimation Demo.points1 Demo.points2 0 1
            Demo.options (Demo.world 42))
     = CallSetPRNGSeed 0 ::
       map (CallCamFromImg 0) Demo.points1 ++
       map (CallCamFromImg 1) Demo.points2 ++
       between ++ CallEstimate E5_E5 ransac_options X Y :: after ∧
     Forall (fun e => ∃ camera, e = CallMeanFocalLength camera) between) ∧
  PRNG (snd (essential_matrix_estimation Demo.points1 Demo.points2 0 1
               Demo.options (Demo.world 42)))
  = snd (Demo.estimate 5 ransac_options X Y 0%Z).
Proof.
  destruct (essential_engine_runs_on_normalized_input (H := Demo.colmap)
              Demo.points1 Demo.points2 0 1 Demo.options (Demo.world 42)
              eq_refl)
    as (Hcalls & _ & Hgen & _).
  split; [exact Hcalls | exact Hgen].
Defined.

(** C6 at work: seven of the eight correspondences are inliers. *)
Lemma essential_success_report_witness :
  Demo.essential_report !! "cam2_from_cam1"
  = Some (PyRigid3d {| rotation := {| qw := 1; qx := 0; qy := 0; qz := 0 |};
                       translation := (1, 0, 0) |}%float) ∧
  Demo.essential_report !! "num_inliers" = Some (PyInt 7) ∧
  dom Demo.essential_report
  = {["success"; "E"; "cam2_from_cam1"; "num_inliers"; "inliers"]}.
Proof.
  destruct (essential_success_report (H := Demo.colmap)
              Demo.points1 Demo.points2 0 1 Demo.options (Demo.world 42)
              eq_refl eq_refl)
    as [_ Hreport].
  destruct (Hreport Demo.essential_report)
    as (_ & _ & _ & Hpose & Hcount & _ & Hdom).
  - rewrite demo_essential_run. reflexivity.
  - split; [exact Hpose|]. split; [exact Hcount | exact Hdom].
Defined.

(** C7 at work: the stand-in for pose recovery yields one point per pair;
    seven inliers, seven points. *)
Lemma pose_result_has_one_point_per_inlier_witness :
  let report :=
    fst (essential_ransac Demo.points1 Demo.points2 0 1 Demo.options
           (Demo.world 42)) in
  let X := map (Demo.cam_from_img (Demo.camera_at 0)) Demo.points1 in
  let Y := map (Demo.cam_from_img (Demo.camera_at 1)) Demo.points2 in
  ∃ inliers : list bool,
    Demo.essential_report !! "inliers" = Some (PyBoolList inliers) ∧
    length (snd (Demo.pose (model report)
                   (inliers_of (inlier_mask report) X)
                   (inliers_of (inlier_mask report) Y)))
    = count_true inliers.
Proof.
  assert (Hpose : @pose_triangulates_every_pair Demo.colmap)
    by (intros E X Y; apply length_map).
  assert (Hrun : fst (essential_matrix_estimation Demo.points1 Demo.points2
                        0 1 Demo.options (Demo.world 42))
                 = Returned Demo.essential_report)
    by (rewrite demo_essential_run; reflexivity).
  destruct (pose_result_has_one_point_per_inlier (H := Demo.colmap)
              Demo.points1 Demo.points2 0 1 Demo.options (Demo.world 42)
              Demo.essential_report Hpose eq_refl eq_refl Hrun)
    as (_ & _ & Hpoints).
  exact Hpoints.
Defined.
